(** * mcp_documentation_server: the two documentation tools of src/index.ts

    The server registers two tools, [getOverviewDocFor] and
    [getDetailedDocFor].  Each one builds a path with Node's [path] module,
    reads it with [fs/promises] and wraps the outcome in an MCP response.

    The development embeds
    - the POSIX flavour of Node's [path] ([dirname], [resolve], [join],
      [normalize]) on strings,
    - the three [fs/promises] calls the handlers make ([access], [readFile],
      [readdir]) as an interface, with an in-memory directory tree as a
      concrete instance,
    - [console.error] as a log that is threaded through the handlers,
    - [try]/[catch] as an exception monad,
    - the [z.string()] parameter shapes the tools are registered with. *)

From Stdlib Require Import String Ascii List Bool Arith Lia.
From Stdlib Require Import DecimalString.
Import ListNotations.
Open Scope list_scope.
Open Scope string_scope.

Set Implicit Arguments.
Set Warnings "-register-all".

(* ------------------------------------------------------------------------- *)
(** ** JavaScript strings *)
(* ------------------------------------------------------------------------- *)

Module Js.

(** [s.charCodeAt(0) === CHAR_FORWARD_SLASH]. *)
Definition is_slash (c : ascii) : bool := Ascii.eqb c "/".

Definition starts_with_slash (s : string) : bool :=
  match s with
  | String c _ => is_slash c
  | EmptyString => false
  end.

Fixpoint last_char (s : string) : option ascii :=
  match s with
  | EmptyString => None
  | String c EmptyString => Some c
  | String _ r => last_char r
  end.

Definition ends_with_slash (s : string) : bool :=
  match last_char s with
  | Some c => is_slash c
  | None => false
  end.

Definition is_empty (s : string) : bool :=
  match s with
  | EmptyString => true
  | _ => false
  end.

(** [s.split("/")]: the pieces between the separators; never the empty
    list. *)
Fixpoint split_slash (s : string) : list string :=
  match s with
  | EmptyString => [""]
  | String c r =>
      if is_slash c then "" :: split_slash r
      else match split_slash r with
           | h :: t => String c h :: t
           | [] => [String c ""]
           end
  end.

(** [xs.join(sep)]. *)
Definition join (sep : string) (xs : list string) : string :=
  String.concat sep xs.

(** [xs.includes(x)] on an array of strings. *)
Definition includes (x : string) (xs : list string) : bool :=
  existsb (String.eqb x) xs.

(** [s.includes(t)]: [t] occurs in [s] as a contiguous substring. *)
Fixpoint str_includes (t s : string) : bool :=
  String.prefix t s ||
  match s with
  | EmptyString => false
  | String _ r => str_includes t r
  end.

(** The [length] of the JavaScript string that a UTF-8 text decodes to,
    counted in UTF-16 code units: one per code point, two for the code
    points encoded on four bytes. *)
Definition utf16_units (c : ascii) : nat :=
  let n := nat_of_ascii c in
  if (n <? 128)%nat then 1      (* ASCII *)
  else if (n <? 192)%nat then 0 (* continuation byte *)
  else if (n <? 240)%nat then 1 (* lead of a 2- or 3-byte sequence *)
  else 2.                       (* lead of a 4-byte sequence: two units *)

Fixpoint length (s : string) : nat :=
  match s with
  | EmptyString => 0
  | String c r => utf16_units c + length r
  end.

(** [String(n)] / [`${n}`] for a non-negative integer. *)
Definition of_nat (n : nat) : string :=
  NilZero.string_of_uint (Nat.to_uint n).

Definition hex_digit (n : nat) : ascii :=
  ascii_of_nat (if (n <? 10)%nat then 48 + n else 87 + n).

(** The double quote, as a one-character string. *)
Definition dq : string := String "034"%char EmptyString.

(** [JSON.stringify] of one character inside a string (QuoteJSONString). *)
Definition json_escape (c : ascii) : string :=
  let n := nat_of_ascii c in
  if (n =? 8)%nat then "\b"
  else if (n =? 9)%nat then "\t"
  else if (n =? 10)%nat then "\n"
  else if (n =? 12)%nat then "\f"
  else if (n =? 13)%nat then "\r"
  else if (n =? 34)%nat then "\" ++ dq
  else if (n =? 92)%nat then "\\"
  else if (n <? 32)%nat then
    "\u00" ++ String (hex_digit (n / 16))
                 (String (hex_digit (n mod 16)) EmptyString)
  else String c EmptyString.

Fixpoint json_quote_body (s : string) : string :=
  match s with
  | EmptyString => ""
  | String c r => json_escape c ++ json_quote_body r
  end.

Definition json_quote (s : string) : string :=
  dq ++ json_quote_body s ++ dq.

(** [JSON.stringify(files)] for an array of strings. *)
Definition JSON_stringify (files : list string) : string :=
  "[" ++ join "," (map json_quote files) ++ "]".

(** No separator occurs in [s]. *)
Fixpoint slash_free (s : string) : bool :=
  match s with
  | EmptyString => true
  | String c r => negb (is_slash c) && slash_free r
  end.

End Js.

(* ------------------------------------------------------------------------- *)
(** ** Node's [path] module, POSIX flavour *)
(* ------------------------------------------------------------------------- *)

Module Path.

Definition is_dots (seg : string) : bool := String.eqb seg "..".

(** One separator-delimited segment of [normalizeString].  [res] is the
    result built so far, as the list of its segments, last one first.
    An empty segment and ["."] are dropped; [".."] removes the last segment
    unless there is none or it is [".."] itself, in which case it is kept
    only when the path may climb above its start. *)
Definition normalize_step (allowAboveRoot : bool) (res : list string)
    (seg : string) : list string :=
  if Js.is_empty seg || String.eqb seg "." then res
  else if is_dots seg then
    match res with
    | last :: rest =>
        if is_dots last then (if allowAboveRoot then ".." :: res else res)
        else rest
    | [] => if allowAboveRoot then [".."] else []
    end
  else seg :: res.

Definition normalize_segments (allowAboveRoot : bool) (segs : list string)
    : list string :=
  rev (fold_left (normalize_step allowAboveRoot) segs []).

(** [normalizeString(path, allowAboveRoot, "/", isPosixPathSeparator)]. *)
Definition normalizeString (path : string) (allowAboveRoot : bool) : string :=
  Js.join "/" (normalize_segments allowAboveRoot (Js.split_slash path)).

(** [path.posix.normalize]. *)
Definition normalize (path : string) : string :=
  if Js.is_empty path then "."
  else
    let isAbsolute := Js.starts_with_slash path in
    let trailingSeparator := Js.ends_with_slash path in
    let p := normalizeString path (negb isAbsolute) in
    if Js.is_empty p then
      if isAbsolute then "/"
      else if trailingSeparator then "./" else "."
    else
      let p := if trailingSeparator then p ++ "/" else p in
      if isAbsolute then "/" ++ p else p.

(** The loop of [path.posix.join]: the non-empty arguments, separated by
    ["/"]; [None] while no argument was non-empty. *)
Fixpoint join_args (joined : option string) (args : list string)
    : option string :=
  match args with
  | [] => joined
  | arg :: rest =>
      if Js.is_empty arg then join_args joined rest
      else match joined with
           | None => join_args (Some arg) rest
           | Some j => join_args (Some (j ++ "/" ++ arg)) rest
           end
  end.

(** [path.posix.join(...args)]. *)
Definition join (args : list string) : string :=
  match join_args None args with
  | None => "."
  | Some joined => normalize joined
  end.

(** The loop of [path.posix.resolve], from the last argument to the first
    and then the working directory, until the path is absolute. *)
Fixpoint resolve_loop (cwd : string) (args_rev : list string)
    (resolvedPath : string) : string * bool :=
  match args_rev with
  | [] =>
      if Js.is_empty cwd then (resolvedPath, false)
      else (cwd ++ "/" ++ resolvedPath, Js.starts_with_slash cwd)
  | p :: rest =>
      if Js.is_empty p then resolve_loop cwd rest resolvedPath
      else if Js.starts_with_slash p then (p ++ "/" ++ resolvedPath, true)
      else resolve_loop cwd rest (p ++ "/" ++ resolvedPath)
  end.

(** [path.posix.resolve(...args)], in a process whose working directory is
    [cwd]. *)
Definition resolve (cwd : string) (args : list string) : string :=
  let '(resolvedPath, resolvedAbsolute) := resolve_loop cwd (rev args) "" in
  let p := normalizeString resolvedPath (negb resolvedAbsolute) in
  if resolvedAbsolute then "/" ++ p
  else if Js.is_empty p then "." else p.

(** The backwards scan of [path.posix.dirname]: [chars] are the characters
    at the indices [i], [i-1], ...; the scan stops above index 0 and yields
    the index of the separator that ends the directory part. *)
Fixpoint dirname_scan (chars : list ascii) (i : nat) (matchedSlash : bool)
    : option nat :=
  match chars, i with
  | c :: rest, S j =>
      if Js.is_slash c then
        if matchedSlash then dirname_scan rest j true else Some i
      else dirname_scan rest j false
  | _, _ => None
  end.

(** [path.posix.dirname]. *)
Definition dirname (path : string) : string :=
  if Js.is_empty path then "."
  else
    let hasRoot := Js.starts_with_slash path in
    match dirname_scan (rev (list_ascii_of_string path))
                       (String.length path - 1) true with
    | None => if hasRoot then "/" else "."
    | Some e =>
        if hasRoot && (e =? 1)%nat then "//" else String.substring 0 e path
    end.

(** *** Normalized absolute paths, by their segments *)

(** A segment that [normalizeString] keeps as it is. *)
Definition clean (seg : string) : bool :=
  negb (Js.is_empty seg) && negb (String.eqb seg ".")
  && negb (is_dots seg) && Js.slash_free seg.

(** The absolute path with the given segments. *)
Definition abs_of (segs : list string) : string := "/" ++ Js.join "/" segs.

(** What [normalize] prints for an absolute path with the given segments. *)
Definition render (segs : list string) (trailingSeparator : bool) : string :=
  match segs with
  | [] => "/"
  | _ => if trailingSeparator then abs_of segs ++ "/" else abs_of segs
  end.

(** The segments [join] is left with after an absolute first argument with
    segments [rs]. *)
Definition resolved_segments (rs : list string) (args : list string)
    : list string :=
  rev (fold_left (normalize_step false)
         (flat_map Js.split_slash args) (rev rs)).

End Path.

(* ------------------------------------------------------------------------- *)
(** ** Exceptions, the diagnostic log and the file system interface *)
(* ------------------------------------------------------------------------- *)

(** What a [catch] clause can receive: an [Error] instance with its
    [message], or any other value, kept as its [String(...)] rendering. *)
Inductive Thrown : Type :=
| ErrorObject (message : string)
| OtherValue (rendering : string).

(** [error instanceof Error ? error.message : String(error)]. *)
Definition message_of (error : Thrown) : string :=
  match error with
  | ErrorObject message => message
  | OtherValue rendering => rendering
  end.

Inductive Completion (A : Type) : Type :=
| Normal (a : A)
| Throw (e : Thrown).
Arguments Normal {A} a.
Arguments Throw {A} e.

(** The lines written by [console.error], oldest first. *)
Definition Log : Type := list string.

(** A computation that may write to the log and may throw. *)
Definition M (A : Type) : Type := Log -> Completion A * Log.

Definition ret {A} (a : A) : M A := fun log => (Normal a, log).

Definition bind {A B} (m : M A) (k : A -> M B) : M B :=
  fun log =>
    match m log with
    | (Normal a, log') => k a log'
    | (Throw e, log') => (Throw e, log')
    end.

(** [try { body } catch (e) { handler }]. *)
Definition try_catch {A} (body : M A) (handler : Thrown -> M A) : M A :=
  fun log =>
    match body log with
    | (Normal a, log') => (Normal a, log')
    | (Throw e, log') => handler e log'
    end.

(** [console.error(line)]. *)
Definition console_error (line : string) : M unit :=
  fun log => (Normal tt, (log ++ [line])%list).

(** [await p] for a promise that is already settled. *)
Definition await {A} (settled : Completion A) : M A :=
  fun log => (settled, log).

Declare Scope js_scope.
Delimit Scope js_scope with js.
Notation "x <- m ;; k" := (bind m (fun x => k))
  (at level 61, m at next level, right associativity) : js_scope.
Notation "m ;; k" := (bind m (fun _ => k))
  (at level 61, right associativity) : js_scope.
Open Scope js_scope.

(** The part of [fs/promises] the handlers use, as the state of the file
    system during one request: each call settles with a value or rejects
    with what a [catch] receives.  [readFile] with the ["utf-8"] encoding
    yields the text of the file. *)
Record FileSystem : Type := {
  access : string -> Completion unit;          (* fs.access(p, F_OK) *)
  readFile : string -> Completion string;       (* fs.readFile(p, "utf-8") *)
  readdir : string -> Completion (list string)  (* fs.readdir(p) *)
}.

(** What the handlers read from the running process.  [import.meta.url] is
    the well-formed [file:] URL of the entry module, so building the [URL]
    and decoding its [pathname] do not throw. *)
Record Process : Type := {
  (** [decodeURIComponent(new URL(import.meta.url).pathname)] *)
  module_pathname : string;
  (** [process.cwd()] *)
  cwd : string
}.

(* ------------------------------------------------------------------------- *)
(** ** Tool responses *)
(* ------------------------------------------------------------------------- *)

Record ContentItem : Type := { type : string; text : string }.

(** The object a tool callback returns; [isError] is [None] when the
    property is absent. *)
Record ToolResult : Type := {
  content : list ContentItem;
  isError : option bool
}.

(* ------------------------------------------------------------------------- *)
(** ** The two tool handlers *)
(* ------------------------------------------------------------------------- *)

Section Handlers.

Variable fs : FileSystem.
Variable process : Process.

Definition modulePath : string := Path.dirname (module_pathname process).

(** [path.resolve(modulePath, '..')]. *)
Definition projectRoot : string :=
  Path.resolve (cwd process) [modulePath; ".."].

(** [docPath] of [getOverviewDocFor]. *)
Definition overviewDocPath (name : string) : string :=
  Path.join [projectRoot; "docs"; name; "overview.md"].

(** [docPath] of [getDetailedDocFor]. *)
Definition detailedDocPath (project document : string) : string :=
  Path.join [projectRoot; "docs"; project; document ++ ".md"].

(** [projectDir] of [getDetailedDocFor]'s catch block. *)
Definition projectDir (project : string) : string :=
  Path.join [projectRoot; "docs"; project].

Definition overview_error_text (name errorMessage : string) : string :=
  "Error: Could not find overview document for " ++ Js.dq ++ name ++ Js.dq
  ++ ". " ++ errorMessage.

(** The best-effort listing inside [getOverviewDocFor]'s catch block; it
    only writes to the log. *)
Definition overview_listing (name : string) : M unit :=
  try_catch
    (let projectRoot := cwd process in
     let docsDir := Path.join [projectRoot; "docs"] in
     files <- await (readdir fs docsDir) ;;
     console_error ("Files in docs directory: " ++ Js.JSON_stringify files) ;;
     if Js.includes name files then
       let subDir := Path.join [docsDir; name] in
       subFiles <- await (readdir fs subDir) ;;
       console_error ("Files in docs/" ++ name ++ " directory: "
                      ++ Js.JSON_stringify subFiles)
     else ret tt)
    (fun e => console_error ("Error listing directory: " ++ message_of e)).

Definition getOverviewDocFor (name : string) : M ToolResult :=
  try_catch
    (console_error ("Module path: " ++ modulePath) ;;
     console_error ("Project root: " ++ projectRoot) ;;
     let docPath := overviewDocPath name in
     console_error ("Attempting to read file at: " ++ docPath) ;;
     await (access fs docPath) ;;
     console_error ("File exists at: " ++ docPath) ;;
     content <- await (readFile fs docPath) ;;
     console_error ("Successfully read file with "
                    ++ Js.of_nat (Js.length content) ++ " characters") ;;
     ret {| content := [{| type := "text"; text := content |}];
            isError := None |})
    (fun error =>
       let errorMessage := message_of error in
       console_error ("Error reading doc: " ++ errorMessage) ;;
       overview_listing name ;;
       ret {| content := [{| type := "text";
                             text := overview_error_text name errorMessage |}];
              isError := Some true |}).

Definition newline : string := String "010"%char EmptyString.

Definition detailed_listing_text (project document : string)
    (files : list string) (errorMessage : string) : string :=
  "Error: Could not find document " ++ Js.dq ++ document ++ ".md" ++ Js.dq
  ++ " for project " ++ Js.dq ++ project ++ Js.dq ++ ". " ++ newline
  ++ "Available documents: " ++ Js.join ", " files ++ ". " ++ errorMessage.

Definition detailed_missing_text (project document errorMessage : string)
    : string :=
  "Error: Could not find project " ++ Js.dq ++ project ++ Js.dq
  ++ " or document " ++ Js.dq ++ document ++ ".md" ++ Js.dq ++ ". "
  ++ errorMessage.

Definition getDetailedDocFor (project document : string) : M ToolResult :=
  try_catch
    (let docPath := detailedDocPath project document in
     console_error ("Attempting to read detailed doc at: " ++ docPath) ;;
     await (access fs docPath) ;;
     console_error ("Detailed doc exists at: " ++ docPath) ;;
     content <- await (readFile fs docPath) ;;
     console_error ("Successfully read detailed doc with "
                    ++ Js.of_nat (Js.length content) ++ " characters") ;;
     ret {| content := [{| type := "text"; text := content |}];
            isError := None |})
    (fun error =>
       let errorMessage := message_of error in
       console_error ("Error reading detailed doc: " ++ errorMessage) ;;
       try_catch
         (let projectDir := projectDir project in
          await (access fs projectDir) ;;
          files <- await (readdir fs projectDir) ;;
          console_error ("Available documents in " ++ project ++ ": "
                         ++ Js.JSON_stringify files) ;;
          ret {| content :=
                   [{| type := "text";
                       text := detailed_listing_text project document files
                                 errorMessage |}];
                 isError := Some true |})
         (fun e =>
            ret {| content :=
                     [{| type := "text";
                         text := detailed_missing_text project document
                                   errorMessage |}];
                   isError := Some true |})).

End Handlers.

(* ------------------------------------------------------------------------- *)
(** ** An in-memory directory tree as the file system *)
(* ------------------------------------------------------------------------- *)

Module Tree.

Inductive node : Type :=
| File (contents : string)
| Dir (entries : list (string * node)).

Fixpoint find_entry (name : string) (entries : list (string * node))
    : option node :=
  match entries with
  | [] => None
  | (n, child) :: rest =>
      if String.eqb n name then Some child else find_entry name rest
  end.

Inductive outcome : Type :=
| Found (ancestors : list node) (n : node)
| NoEntry        (* ENOENT *)
| NotDirectory.  (* ENOTDIR *)

(** Path resolution, one component at a time; [ancestors] are the
    directories from the parent of [cur] up to the root. *)
Fixpoint walk (ancestors : list node) (cur : node) (segs : list string)
    : outcome :=
  match segs with
  | [] => Found ancestors cur
  | seg :: rest =>
      match cur with
      | File _ => NotDirectory
      | Dir entries =>
          if Js.is_empty seg || String.eqb seg "." then walk ancestors cur rest
          else if String.eqb seg ".." then
            match ancestors with
            | parent :: above => walk above parent rest
            | [] => walk [] cur rest
            end
          else
            match find_entry seg entries with
            | Some child => walk (cur :: ancestors) child rest
            | None => NoEntry
            end
      end
  end.

Section WithTree.

Variable root : node.
Variable cwd : string.

(** A relative path is resolved from the working directory. *)
Definition lookup (path : string) : outcome :=
  if Js.starts_with_slash path then walk [] root (Js.split_slash path)
  else walk [] root (Js.split_slash cwd ++ Js.split_slash path)%list.

Definition is_directory (path : string) : bool :=
  match lookup path with
  | Found _ (Dir _) => true
  | _ => false
  end.

Definition exists_at (path : string) : bool :=
  match lookup path with
  | Found _ _ => true
  | _ => false
  end.

Definition enoent (syscall path : string) : Thrown :=
  ErrorObject ("ENOENT: no such file or directory, " ++ syscall ++ " '"
               ++ path ++ "'").

Definition enotdir (syscall path : string) : Thrown :=
  ErrorObject ("ENOTDIR: not a directory, " ++ syscall ++ " '" ++ path ++ "'").

Definition tree_access (path : string) : Completion unit :=
  match lookup path with
  | Found _ _ => Normal tt
  | NoEntry => Throw (enoent "access" path)
  | NotDirectory => Throw (enotdir "access" path)
  end.

Definition tree_readFile (path : string) : Completion string :=
  match lookup path with
  | Found _ (File contents) => Normal contents
  | Found _ (Dir _) =>
      Throw (ErrorObject "EISDIR: illegal operation on a directory, read")
  | NoEntry => Throw (enoent "open" path)
  | NotDirectory => Throw (enotdir "open" path)
  end.

Definition tree_readdir (path : string) : Completion (list string) :=
  match lookup path with
  | Found _ (Dir entries) => Normal (map fst entries)
  | Found _ (File _) => Throw (enotdir "scandir" path)
  | NoEntry => Throw (enoent "scandir" path)
  | NotDirectory => Throw (enotdir "scandir" path)
  end.

Definition fs : FileSystem :=
  {| access := tree_access;
     readFile := tree_readFile;
     readdir := tree_readdir |}.

End WithTree.

End Tree.

(* ------------------------------------------------------------------------- *)
(** ** Parameter shapes: [{ name: z.string() }] and
       [{ project: z.string(), document: z.string() }] *)
(* ------------------------------------------------------------------------- *)

Module Zod.

(** The JSON values a request can carry as tool arguments (the value of a
    number plays no role below). *)
Inductive json : Type :=
| JNull
| JBool (b : bool)
| JNumber (n : nat)
| JString (s : string)
| JArray (items : list json)
| JObject (fields : list (string * json)).

(** [args[key]]; [None] is [undefined]. *)
Fixpoint property (key : string) (fields : list (string * json))
    : option json :=
  match fields with
  | [] => None
  | (k, v) :: rest => if String.eqb k key then Some v else property key rest
  end.

(** [z.string()] as zod documents it: it accepts exactly the values whose
    [typeof] is ["string"]; the schemas in [index.ts] attach no [min],
    [nonempty] or other check to it. *)
Definition string_ (v : option json) : option string :=
  match v with
  | Some (JString s) => Some s
  | _ => None
  end.

(** [z.object({ name: z.string() })]. *)
Definition overview_shape (args : json) : option string :=
  match args with
  | JObject fields => string_ (property "name" fields)
  | _ => None
  end.

(** [z.object({ project: z.string(), document: z.string() })]. *)
Definition detailed_shape (args : json) : option (string * string) :=
  match args with
  | JObject fields =>
      match string_ (property "project" fields),
            string_ (property "document" fields) with
      | Some project, Some document => Some (project, document)
      | _, _ => None
      end
  | _ => None
  end.

End Zod.

(** What a tool call amounts to: the arguments are rejected by the shape
    before the callback runs, or the callback runs on the parsed values. *)
Inductive Call : Type :=
| Rejected
| Handled (run : M ToolResult).

Definition call_getOverviewDocFor (fs : FileSystem) (process : Process)
    (args : Zod.json) : Call :=
  match Zod.overview_shape args with
  | Some name => Handled (getOverviewDocFor fs process name)
  | None => Rejected
  end.

Definition call_getDetailedDocFor (fs : FileSystem) (process : Process)
    (args : Zod.json) : Call :=
  match Zod.detailed_shape args with
  | Some (project, document) =>
      Handled (getDetailedDocFor fs process project document)
  | None => Rejected
  end.

(* ------------------------------------------------------------------------- *)
(** ** A sample installation *)
(* ------------------------------------------------------------------------- *)

Module Sample.

Definition proc : Process :=
  {| module_pathname := "/app/build/index.js"; cwd := "/app" |}.

(** The server is installed in [/app] and started there.
    [/app/docs/sample/] holds [overview.md] and [tool.md];
    [/app/docs/bare/] holds only [tool.md]; [/app/secret.md] and
    [/app/overview.md] lie outside [docs/]. *)
Definition disk : Tree.node :=
  Tree.Dir
    [("app",
      Tree.Dir
        [("build", Tree.Dir [("index.js", Tree.File "// entry")]);
         ("secret.md", Tree.File "top secret");
         ("overview.md", Tree.File "not a doc");
         ("docs",
          Tree.Dir
            [("sample",
              Tree.Dir [("overview.md", Tree.File "Hello");
                        ("tool.md", Tree.File "# Tools")]);
             ("bare", Tree.Dir [("tool.md", Tree.File "# Tools")])])])].

Definition fs : FileSystem := Tree.fs disk "/app".

Definition run {A} (m : M A) : Completion A * Log := m [].

End Sample.

(* ------------------------------------------------------------------------- *)
(** ** What the handlers return, in terms of the file system's answers *)
(* ------------------------------------------------------------------------- *)

(** The existence check followed by the read, as both handlers do it. *)
Definition read_doc (fs : FileSystem) (docPath : string) : Completion string :=
  match access fs docPath with
  | Normal _ => readFile fs docPath
  | Throw e => Throw e
  end.

(** The existence check followed by the listing of
    [getDetailedDocFor]'s catch block. *)
Definition list_dir (fs : FileSystem) (dir : string)
    : Completion (list string) :=
  match access fs dir with
  | Normal _ => readdir fs dir
  | Throw e => Throw e
  end.

Definition text_result (t : string) : ToolResult :=
  {| content := [{| type := "text"; text := t |}]; isError := None |}.

Definition error_result (t : string) : ToolResult :=
  {| content := [{| type := "text"; text := t |}]; isError := Some true |}.

Definition overview_response (fs : FileSystem) (process : Process)
    (name : string) : ToolResult :=
  match read_doc fs (overviewDocPath process name) with
  | Normal contents => text_result contents
  | Throw e => error_result (overview_error_text name (message_of e))
  end.

Definition detailed_response (fs : FileSystem) (process : Process)
    (project document : string) : ToolResult :=
  match read_doc fs (detailedDocPath process project document) with
  | Normal contents => text_result contents
  | Throw e =>
      match list_dir fs (projectDir process project) with
      | Normal files =>
          error_result
            (detailed_listing_text project document files (message_of e))
      | Throw _ =>
          error_result (detailed_missing_text project document (message_of e))
      end
  end.

Ltac run_monad :=
  unfold try_catch, bind, console_error, await, ret in *; simpl in *.

(* ------------------------------------------------------------------------- *)
(** ** Requests, as the SDK dispatches them to the two callbacks *)
(* ------------------------------------------------------------------------- *)

Inductive DocumentRequest : Type :=
| OverviewRequest (name : string)               (* getOverviewDocFor *)
| DetailRequest (project document : string).    (* getDetailedDocFor *)

Definition docPath (process : Process) (req : DocumentRequest) : string :=
  match req with
  | OverviewRequest name => overviewDocPath process name
  | DetailRequest project document => detailedDocPath process project document
  end.

Definition handle (fs : FileSystem) (process : Process)
    (req : DocumentRequest) : M ToolResult :=
  match req with
  | OverviewRequest name => getOverviewDocFor fs process name
  | DetailRequest project document =>
      getDetailedDocFor fs process project document
  end.

Definition response (fs : FileSystem) (process : Process)
    (req : DocumentRequest) : ToolResult :=
  match req with
  | OverviewRequest name => overview_response fs process name
  | DetailRequest project document =>
      detailed_response fs process project document
  end.

(** The strings a request interpolates between [docs] and the end of the
    path, cut at the separators. *)
Definition request_segments (req : DocumentRequest) : list string :=
  match req with
  | OverviewRequest name => Js.split_slash name
  | DetailRequest project document =>
      (Js.split_slash project ++ Js.split_slash (document ++ ".md"))%list
  end.

Definition no_parent_segment (segs : list string) : bool :=
  forallb (fun seg => negb (Path.is_dots seg)) segs.

(** The directory all documents are meant to live in. *)
Definition docs_root (process : Process) : string :=
  Path.join [projectRoot process; "docs"].

(** [path] lies strictly below the directory [dir]. *)
Definition under (dir path : string) : bool := String.prefix (dir ++ "/") path.

(** The pieces that [path.join] receives after [<root>] and [docs], cut at
    the separators: those of [name] and [overview.md], or those of
    [project] and of [document + ".md"]. *)
Definition path_segments (req : DocumentRequest) : list string :=
  match req with
  | OverviewRequest name => (Js.split_slash name ++ ["overview.md"])%list
  | DetailRequest project document =>
      (Js.split_slash project ++ Js.split_slash (document ++ ".md"))%list
  end.

(** The pieces that [normalizeString] does not simply skip. *)
Definition kept_segment (seg : string) : bool :=
  negb (Js.is_empty seg || String.eqb seg ".").

(** The file name a request ends in: [overview.md], or what follows the
    last separator of [document], with [.md] appended. *)
Definition file_name (req : DocumentRequest) : string :=
  match req with
  | OverviewRequest _ => "overview.md"
  | DetailRequest _ document => last (Js.split_slash document) "" ++ ".md"
  end.

(* ------------------------------------------------------------------------- *)
(** ** Checks of the embedding on concrete inputs *)
(* ------------------------------------------------------------------------- *)

Example split_slash_ex :
  Js.split_slash "/a//b/" = [""; "a"; ""; "b"; ""].
Proof. reflexivity. Qed.

Example normalize_ex1 : Path.normalize "/a/b/../c/./d//" = "/a/c/d/".
Proof. reflexivity. Qed.

Example normalize_ex2 : Path.normalize "../../a/.." = "../..".
Proof. reflexivity. Qed.

Example normalize_ex3 : Path.normalize "/../.." = "/".
Proof. reflexivity. Qed.

Example join_ex1 :
  Path.join ["/app"; "docs"; "../../etc"; "overview.md"] = "/etc/overview.md".
Proof. reflexivity. Qed.

Example join_ex2 :
  Path.join ["/app"; "docs"; ""; "overview.md"] = "/app/docs/overview.md".
Proof. reflexivity. Qed.

Example dirname_ex1 : Path.dirname "/app/build/index.js" = "/app/build".
Proof. reflexivity. Qed.

Example dirname_ex2 : Path.dirname "/a//b" = "/a/".
Proof. reflexivity. Qed.

Example dirname_ex3 : Path.dirname "/index.js" = "/".
Proof. reflexivity. Qed.

Example dirname_ex4 : Path.dirname "//b" = "//".
Proof. reflexivity. Qed.

Example resolve_ex1 : Path.resolve "/work" ["/app/build"; ".."] = "/app".
Proof. reflexivity. Qed.

Example resolve_ex2 : Path.resolve "/work" ["build"; ".."] = "/work".
Proof. reflexivity. Qed.

Example json_ex :
  Js.JSON_stringify ["overview.md"; "tool.md"]
  = "[" ++ Js.dq ++ "overview.md" ++ Js.dq ++ "," ++ Js.dq ++ "tool.md"
    ++ Js.dq ++ "]".
Proof. reflexivity. Qed.

Example of_nat_ex : Js.of_nat 0 = "0" /\ Js.of_nat 1234 = "1234".
Proof. split; reflexivity. Qed.

Example sample_overview :
  fst (Sample.run (getOverviewDocFor Sample.fs Sample.proc "sample"))
  = Normal {| content := [{| type := "text"; text := "Hello" |}];
              isError := None |}.
Proof. reflexivity. Qed.

Example sample_overview_log :
  snd (Sample.run (getOverviewDocFor Sample.fs Sample.proc "sample"))
  = ["Module path: /app/build";
     "Project root: /app";
     "Attempting to read file at: /app/docs/sample/overview.md";
     "File exists at: /app/docs/sample/overview.md";
     "Successfully read file with 5 characters"].
Proof. reflexivity. Qed.

Example sample_detail_missing :
  fst (Sample.run (getDetailedDocFor Sample.fs Sample.proc "bare" "resource"))
  = Normal
      {| content :=
           [{| type := "text";
               text := "Error: Could not find document " ++ Js.dq
                       ++ "resource.md" ++ Js.dq ++ " for project " ++ Js.dq
                       ++ "bare" ++ Js.dq ++ ". " ++ newline
                       ++ "Available documents: tool.md. "
                       ++ "ENOENT: no such file or directory, access "
                       ++ "'/app/docs/bare/resource.md'" |}];
         isError := Some true |}.
Proof. reflexivity. Qed.

(* ------------------------------------------------------------------------- *)
(** ** The handlers, step by step *)
(* ------------------------------------------------------------------------- *)

Section HandlerFacts.

Variable fs : FileSystem.
Variable process : Process.

Lemma overview_listing_returns (name : string) (log : Log) :
  exists log', overview_listing fs process name log = (Normal tt, log').
Proof.
  unfold overview_listing. run_monad.
  destruct (readdir fs (Path.join [cwd process; "docs"])) as [files | e].
  - destruct (Js.includes name files).
    + destruct (readdir fs _) as [subFiles | e']; eauto.
    + eauto.
  - eauto.
Qed.

Ltac listing_returns :=
  match goal with
  | |- context [overview_listing fs process ?n ?l] =>
      let log' := fresh "log'" in
      let H := fresh "H" in
      destruct (overview_listing_returns n l) as [log' H];
      rewrite H; eauto
  end.

Lemma getOverviewDocFor_returns (name : string) (log : Log) :
  exists log',
    getOverviewDocFor fs process name log
    = (Normal (overview_response fs process name), log').
Proof.
  unfold getOverviewDocFor, overview_response, read_doc. run_monad.
  destruct (access fs (overviewDocPath process name)) as [[] | e].
  - destruct (readFile fs (overviewDocPath process name)) as [c | e].
    + eauto.
    + listing_returns.
  - listing_returns.
Qed.

Lemma getDetailedDocFor_returns (project document : string) (log : Log) :
  exists log',
    getDetailedDocFor fs process project document log
    = (Normal (detailed_response fs process project document), log').
Proof.
  unfold getDetailedDocFor, detailed_response, read_doc, list_dir. run_monad.
  destruct (access fs (detailedDocPath process project document)) as [[] | e].
  - destruct (readFile fs (detailedDocPath process project document))
      as [c | e].
    + eauto.
    + destruct (access fs (projectDir process project)) as [[] | e1].
      * destruct (readdir fs (projectDir process project)) as [files | e2];
          eauto.
      * eauto.
  - destruct (access fs (projectDir process project)) as [[] | e1].
    + destruct (readdir fs (projectDir process project)) as [files | e2];
        eauto.
    + eauto.
Qed.

End HandlerFacts.

(* ------------------------------------------------------------------------- *)
(** ** Facts about strings and [split] *)
(* ------------------------------------------------------------------------- *)

Module StrFacts.

Lemma append_assoc (a b c : string) : (a ++ b) ++ c = a ++ b ++ c.
Proof. induction a as [| x a IH]; simpl; [reflexivity | now rewrite IH]. Qed.

Lemma append_nil_r (a : string) : a ++ "" = a.
Proof. induction a as [| x a IH]; simpl; [reflexivity | now rewrite IH]. Qed.

Lemma length_append (a b : string) :
  String.length (a ++ b) = String.length a + String.length b.
Proof. induction a as [| x a IH]; simpl; [reflexivity | now rewrite IH]. Qed.

Lemma is_empty_true (s : string) : Js.is_empty s = true -> s = "".
Proof. destruct s; simpl; [reflexivity | discriminate]. Qed.

Lemma is_empty_append (a b : string) :
  Js.is_empty b = false -> Js.is_empty (a ++ b) = false.
Proof. destruct a; simpl; auto. Qed.

Lemma starts_with_slash_append (a b : string) :
  Js.is_empty a = false ->
  Js.starts_with_slash (a ++ b) = Js.starts_with_slash a.
Proof. destruct a; simpl; [discriminate | reflexivity]. Qed.

Lemma starts_with_slash_nonempty (a : string) :
  Js.starts_with_slash a = true -> Js.is_empty a = false.
Proof. destruct a; simpl; [discriminate | reflexivity]. Qed.

Lemma last_char_append (a b : string) :
  Js.is_empty b = false -> Js.last_char (a ++ b) = Js.last_char b.
Proof.
  intros Hb. induction a as [| x a IH]; [reflexivity |].
  simpl. rewrite IH.
  destruct (a ++ b) eqn:E; [| reflexivity].
  destruct a; simpl in E; [subst b |]; discriminate.
Qed.

Lemma ends_with_slash_append (a b : string) :
  Js.is_empty b = false -> Js.ends_with_slash (a ++ b) = Js.ends_with_slash b.
Proof. intros Hb. unfold Js.ends_with_slash. now rewrite last_char_append. Qed.

Lemma prefix_append (a b : string) : String.prefix a (a ++ b) = true.
Proof.
  induction a as [| x a IH]; simpl.
  - destruct b; reflexivity.
  - destruct (ascii_dec x x); [exact IH | congruence].
Qed.

Lemma str_includes_middle (t a b : string) :
  Js.str_includes t (a ++ t ++ b) = true.
Proof.
  induction a as [| x a IH].
  - pose proof (prefix_append t b) as H. simpl.
    destruct (t ++ b); unfold Js.str_includes; fold Js.str_includes;
      now rewrite H.
  - simpl. rewrite IH. apply orb_true_r.
Qed.

Lemma str_includes_append_l (t p s : string) :
  Js.str_includes t s = true -> Js.str_includes t (p ++ s) = true.
Proof.
  intros H. induction p as [| c p IH]; [exact H |].
  simpl. rewrite IH. apply orb_true_r.
Qed.

Lemma ends_with_slash_free (y : string) :
  Js.slash_free y = true -> Js.ends_with_slash y = false.
Proof.
  unfold Js.ends_with_slash.
  induction y as [| c r IH]; [reflexivity |].
  simpl. intros H. apply andb_prop in H as [Hc Hr].
  apply negb_true_iff in Hc.
  destruct r; [exact Hc | now apply IH].
Qed.

(** *** [split("/")] *)

Lemma split_slash_cons (s : string) :
  exists h t, Js.split_slash s = h :: t.
Proof.
  destruct s as [| c r]; simpl; eauto.
  destruct (Js.is_slash c); eauto.
  destruct (Js.split_slash r); eauto.
Qed.

Lemma split_slash_append (a b : string) :
  Js.split_slash (a ++ "/" ++ b)
  = (Js.split_slash a ++ Js.split_slash b)%list.
Proof.
  induction a as [| c a IH]; [reflexivity |].
  simpl. destruct (Js.is_slash c).
  - simpl in IH. now rewrite IH.
  - simpl in IH. rewrite IH.
    destruct (split_slash_cons a) as (h & t & E). now rewrite E.
Qed.

Lemma split_slash_single (s : string) :
  Js.slash_free s = true -> Js.split_slash s = [s].
Proof.
  induction s as [| c r IH]; [reflexivity |].
  simpl. intros H. apply andb_prop in H as [Hc Hr].
  apply negb_true_iff in Hc. rewrite Hc, (IH Hr). reflexivity.
Qed.

Lemma split_slash_slash_free (s : string) :
  Forall (fun seg => Js.slash_free seg = true) (Js.split_slash s).
Proof.
  induction s as [| c r IH]; simpl.
  - repeat constructor.
  - destruct (Js.is_slash c) eqn:Hc.
    + constructor; [reflexivity | exact IH].
    + destruct (Js.split_slash r) as [| h t].
      * constructor; [simpl; now rewrite Hc | constructor].
      * inversion IH; subst. constructor; [simpl; now rewrite Hc | assumption].
Qed.

Lemma split_slash_join (segs : list string) :
  segs <> [] ->
  Forall (fun seg => Js.slash_free seg = true) segs ->
  Js.split_slash (Js.join "/" segs) = segs.
Proof.
  induction segs as [| x rest IH]; [congruence |].
  intros _ H. inversion H as [| ? ? Hx Hrest]; subst.
  destruct rest as [| y rest'].
  - simpl. now apply split_slash_single.
  - change (Js.join "/" (x :: y :: rest'))
      with (x ++ "/" ++ Js.join "/" (y :: rest')).
    rewrite split_slash_append, split_slash_single by assumption.
    rewrite IH by (congruence || assumption). reflexivity.
Qed.

(** Appending a separator-free suffix only extends the last piece. *)
Lemma split_slash_append_free (a b : string) :
  Js.slash_free b = true ->
  Js.split_slash (a ++ b)
  = (removelast (Js.split_slash a)
     ++ [(last (Js.split_slash a) "" ++ b)%string])%list.
Proof.
  intros Hb. induction a as [| c a IH].
  - simpl. now apply split_slash_single.
  - simpl. destruct (split_slash_cons a) as (h & t & E).
    destruct (Js.is_slash c).
    + rewrite IH, E. reflexivity.
    + rewrite IH, E. destruct t; reflexivity.
Qed.

Lemma join_app (xs ys : list string) :
  xs <> [] -> ys <> [] ->
  Js.join "/" (xs ++ ys) = Js.join "/" xs ++ "/" ++ Js.join "/" ys.
Proof.
  intros Hx Hy. induction xs as [| x xs IH]; [congruence |].
  destruct xs as [| x' xs'].
  - destruct ys; [congruence | reflexivity].
  - change (Js.join "/" ((x :: x' :: xs') ++ ys))
      with (x ++ "/" ++ Js.join "/" ((x' :: xs') ++ ys)).
    rewrite IH by congruence.
    change (Js.join "/" (x :: x' :: xs'))
      with (x ++ "/" ++ Js.join "/" (x' :: xs')).
    now rewrite !append_assoc.
Qed.

Lemma join_is_empty (x : string) (xs : list string) :
  Js.is_empty x = false -> Js.is_empty (Js.join "/" (x :: xs)) = false.
Proof.
  intros Hx. destruct xs; simpl; [assumption |].
  destruct x; [discriminate | reflexivity].
Qed.

End StrFacts.

(* ------------------------------------------------------------------------- *)
(** ** Facts about [normalize], [join], [resolve] and [dirname] *)
(* ------------------------------------------------------------------------- *)

Module PathFacts.

Import StrFacts.

Lemma render_nonempty (segs : list string) :
  segs <> [] -> Path.render segs false = Path.abs_of segs.
Proof. destruct segs; [congruence | reflexivity]. Qed.

Lemma clean_inv (seg : string) :
  Path.clean seg = true ->
  Js.is_empty seg = false /\ String.eqb seg "." = false
  /\ Path.is_dots seg = false /\ Js.slash_free seg = true.
Proof.
  unfold Path.clean. intros H.
  repeat (apply andb_prop in H as [H ?]).
  repeat match goal with
         | H : negb _ = true |- _ => apply negb_true_iff in H
         end.
  auto.
Qed.

Lemma step_clean (allow : bool) (res : list string) (seg : string) :
  Path.clean seg = true -> Path.normalize_step allow res seg = seg :: res.
Proof.
  intros H. apply clean_inv in H as (H1 & H2 & H3 & _).
  unfold Path.normalize_step. now rewrite H1, H2, H3.
Qed.

Lemma fold_clean (allow : bool) (segs res : list string) :
  Forall (fun seg => Path.clean seg = true) segs ->
  fold_left (Path.normalize_step allow) segs res = (rev segs ++ res)%list.
Proof.
  intros H. revert res.
  induction H as [| seg segs Hseg _ IH]; intros res; [reflexivity |].
  simpl. rewrite step_clean, IH, <- app_assoc by assumption. reflexivity.
Qed.

(** Below an absolute start, [normalizeString] only ever holds clean
    segments. *)
Lemma step_keeps_clean (res : list string) (seg : string) :
  Js.slash_free seg = true ->
  Forall (fun s => Path.clean s = true) res ->
  Forall (fun s => Path.clean s = true) (Path.normalize_step false res seg).
Proof.
  intros Hseg Hres. unfold Path.normalize_step.
  destruct (Js.is_empty seg) eqn:E1; simpl; [assumption |].
  destruct (String.eqb seg ".") eqn:E2; [assumption |].
  destruct (Path.is_dots seg) eqn:E3.
  - destruct res as [| l rest]; [constructor |].
    destruct (Path.is_dots l); [assumption | now inversion Hres].
  - constructor; [| assumption].
    unfold Path.clean. now rewrite E1, E2, E3, Hseg.
Qed.

Lemma fold_keeps_clean (segs res : list string) :
  Forall (fun s => Js.slash_free s = true) segs ->
  Forall (fun s => Path.clean s = true) res ->
  Forall (fun s => Path.clean s = true)
         (fold_left (Path.normalize_step false) segs res).
Proof.
  intros H. revert res.
  induction H as [| seg segs Hseg _ IH]; intros res Hres; [assumption |].
  simpl. apply IH. now apply step_keeps_clean.
Qed.

Lemma flat_map_split_slash_free (args : list string) :
  Forall (fun s => Js.slash_free s = true) (flat_map Js.split_slash args).
Proof.
  induction args as [| a args IH]; simpl; [constructor |].
  apply Forall_app. split; [apply split_slash_slash_free | exact IH].
Qed.

Lemma resolved_segments_clean (rs args : list string) :
  Forall (fun s => Path.clean s = true) rs ->
  Forall (fun s => Path.clean s = true) (Path.resolved_segments rs args).
Proof.
  intros H. unfold Path.resolved_segments. apply Forall_rev.
  apply fold_keeps_clean; [apply flat_map_split_slash_free |].
  now apply Forall_rev.
Qed.

Lemma clean_slash_free (segs : list string) :
  Forall (fun s => Path.clean s = true) segs ->
  Forall (fun s => Js.slash_free s = true) segs.
Proof.
  intros H. eapply Forall_impl; [| exact H].
  intros s Hs. now apply clean_inv in Hs.
Qed.

Lemma fold_split_abs_of (allow : bool) (rs : list string) :
  Forall (fun s => Path.clean s = true) rs ->
  fold_left (Path.normalize_step allow) (Js.split_slash (Path.abs_of rs)) []
  = rev rs.
Proof.
  intros H. unfold Path.abs_of.
  change (Js.split_slash ("/" ++ Js.join "/" rs))
    with ("" :: Js.split_slash (Js.join "/" rs)).
  destruct rs as [| r rs']; [reflexivity |].
  rewrite split_slash_join by (congruence || now apply clean_slash_free).
  change (fold_left (Path.normalize_step allow) (r :: rs') [] = rev (r :: rs')).
  rewrite fold_clean by assumption. now rewrite app_nil_r.
Qed.

(** *** [join] *)

Lemma join_args_some (args : list string) :
  forall j, Js.starts_with_slash j = true ->
  exists j',
    Path.join_args (Some j) args = Some j'
    /\ Js.starts_with_slash j' = true
    /\ forall allow acc,
         fold_left (Path.normalize_step allow) (Js.split_slash j') acc
         = fold_left (Path.normalize_step allow)
             (flat_map Js.split_slash args)
             (fold_left (Path.normalize_step allow) (Js.split_slash j) acc).
Proof.
  induction args as [| arg rest IH]; intros j Hj.
  - exists j. repeat split; auto.
  - simpl Path.join_args. destruct (Js.is_empty arg) eqn:E.
    + apply is_empty_true in E. subst arg.
      destruct (IH j Hj) as (j' & H1 & H2 & H3).
      exists j'. repeat split; auto.
    + destruct (IH (j ++ "/" ++ arg)) as (j' & H1 & H2 & H3).
      { rewrite starts_with_slash_append; auto.
        now apply starts_with_slash_nonempty. }
      exists j'. repeat split; auto.
      intros allow acc. rewrite H3, split_slash_append.
      simpl flat_map. now rewrite !fold_left_app.
Qed.

Lemma join_args_last (args : list string) (l : string) :
  Js.is_empty l = false ->
  forall o,
    Path.join_args o (args ++ [l])
    = match Path.join_args o args with
      | None => Some l
      | Some j => Some (j ++ "/" ++ l)
      end.
Proof.
  intros Hl. induction args as [| arg rest IH]; intros o.
  - simpl. rewrite Hl. destruct o; reflexivity.
  - simpl. destruct (Js.is_empty arg); [apply IH |].
    destruct o; apply IH.
Qed.

Lemma join_abs_of (rs args : list string) :
  Forall (fun s => Path.clean s = true) rs ->
  exists j,
    Path.join_args (Some (Path.abs_of rs)) args = Some j
    /\ Path.join (Path.abs_of rs :: args)
       = Path.render (Path.resolved_segments rs args) (Js.ends_with_slash j).
Proof.
  intros Hrs.
  destruct (join_args_some args (Path.abs_of rs) eq_refl) as (j & H1 & H2 & H3).
  exists j. split; [assumption |].
  unfold Path.join.
  change (Path.join_args None (Path.abs_of rs :: args))
    with (Path.join_args (Some (Path.abs_of rs)) args).
  rewrite H1. unfold Path.normalize.
  rewrite (starts_with_slash_nonempty _ H2), H2. simpl negb.
  unfold Path.normalizeString, Path.normalize_segments.
  rewrite H3, fold_split_abs_of by assumption.
  fold (Path.resolved_segments rs args).
  pose proof (resolved_segments_clean args Hrs) as Hclean.
  destruct (Path.resolved_segments rs args) as [| x xs]; [reflexivity |].
  inversion Hclean as [| ? ? Hx _]; subst.
  apply clean_inv in Hx as (Hx & _).
  rewrite (join_is_empty x xs Hx). unfold Path.render.
  destruct (Js.ends_with_slash j); reflexivity.
Qed.

Lemma join_abs_of_last (rs args : list string) (l : string) :
  Forall (fun s => Path.clean s = true) rs ->
  Js.is_empty l = false ->
  Path.join (Path.abs_of rs :: args ++ [l])
  = Path.render (Path.resolved_segments rs (args ++ [l]))
      (Js.ends_with_slash l).
Proof.
  intros Hrs Hl.
  destruct (join_abs_of (args ++ [l]) Hrs) as (j & H1 & H2).
  rewrite H2.
  replace (Js.ends_with_slash j) with (Js.ends_with_slash l);
    [reflexivity |].
  rewrite join_args_last in H1 by assumption.
  destruct (Path.join_args (Some (Path.abs_of rs)) args) as [j0 |].
  - injection H1 as <-.
    rewrite ends_with_slash_append by reflexivity.
    symmetry. now apply (ends_with_slash_append "/").
  - now injection H1 as <-.
Qed.

End PathFacts.

(* ------------------------------------------------------------------------- *)
(** ** The project root *)
(* ------------------------------------------------------------------------- *)

Module RootFacts.

Import StrFacts PathFacts.

Lemma dirname_scan_pos (chars : list ascii) :
  forall i m e, Path.dirname_scan chars i m = Some e -> 1 <= e.
Proof.
  induction chars as [| c rest IH]; intros i m e H; [discriminate |].
  destruct i as [| j]; [discriminate |].
  simpl in H. destruct (Js.is_slash c).
  - destruct m; [eauto |]. injection H as <-. lia.
  - eauto.
Qed.

Lemma dirname_absolute (p : string) :
  Js.starts_with_slash p = true ->
  Js.starts_with_slash (Path.dirname p) = true.
Proof.
  destruct p as [| c r]; [discriminate |]. simpl. intros Hc.
  unfold Path.dirname. simpl Js.is_empty. simpl Js.starts_with_slash.
  rewrite Hc.
  destruct (Path.dirname_scan _ _ _) as [e |] eqn:E; [| reflexivity].
  apply dirname_scan_pos in E.
  destruct (e =? 1)%nat; [reflexivity |].
  destruct e as [| e']; [lia |]. simpl. exact Hc.
Qed.

(** With an absolute module path, [path.resolve(modulePath, '..')] never
    consults the working directory and yields a normalized absolute path. *)
Lemma resolve_parent_shape (cwd mp : string) :
  Js.starts_with_slash mp = true ->
  Path.resolve cwd [mp; ".."]
  = Path.abs_of (Path.normalize_segments false
              (Js.split_slash (mp ++ "/" ++ "../"))).
Proof.
  intros H. unfold Path.resolve. simpl rev. simpl Path.resolve_loop.
  rewrite (starts_with_slash_nonempty _ H), H. reflexivity.
Qed.

Lemma projectRoot_shape (process : Process) :
  Js.starts_with_slash (module_pathname process) = true ->
  exists rs,
    Forall (fun s => Path.clean s = true) rs
    /\ projectRoot process = Path.abs_of rs.
Proof.
  intros H. unfold projectRoot.
  rewrite resolve_parent_shape by (now apply dirname_absolute).
  eexists. split; [| reflexivity].
  unfold Path.normalize_segments. apply Forall_rev.
  apply fold_keeps_clean; [apply split_slash_slash_free | constructor].
Qed.

(** *** The directory of a file and its parent *)

Lemma chars_append (a b : string) :
  list_ascii_of_string (a ++ b)
  = (list_ascii_of_string a ++ list_ascii_of_string b)%list.
Proof. induction a as [| c a IH]; simpl; [reflexivity | now rewrite IH]. Qed.

Lemma chars_length (s : string) :
  List.length (list_ascii_of_string s) = String.length s.
Proof. induction s as [| c s IH]; simpl; [reflexivity | now rewrite IH]. Qed.

Lemma chars_slash_free (s : string) :
  Js.slash_free s = true ->
  Forall (fun c => Js.is_slash c = false) (list_ascii_of_string s).
Proof.
  induction s as [| c s IH]; simpl; intros H; [constructor |].
  apply andb_prop in H as [Hc Hs]. apply negb_true_iff in Hc.
  constructor; auto.
Qed.

Lemma dirname_scan_skip (l rest : list ascii) :
  Forall (fun c => Js.is_slash c = false) l ->
  forall i m,
    Path.dirname_scan (l ++ rest) (List.length l + i) m
    = Path.dirname_scan rest i (match l with [] => m | _ => false end).
Proof.
  induction 1 as [| c l Hc _ IH]; intros i m; [reflexivity |].
  simpl. rewrite Hc, IH. destruct l; reflexivity.
Qed.

Lemma substring_prefix (a b : string) :
  String.substring 0 (String.length a) (a ++ b) = a.
Proof.
  induction a as [| c a IH]; simpl.
  - destruct b; reflexivity.
  - now rewrite IH.
Qed.

(** [dirname] of a file name appended to a directory path. *)
Lemma dirname_append (a f : string) :
  Js.starts_with_slash a = true ->
  2 <= String.length a ->
  Js.slash_free f = true -> Js.is_empty f = false ->
  Path.dirname (a ++ "/" ++ f) = a.
Proof.
  intros Ha Hlen Hf Hne. unfold Path.dirname.
  rewrite is_empty_append by reflexivity.
  rewrite starts_with_slash_append by (now apply starts_with_slash_nonempty).
  rewrite Ha.
  rewrite chars_append, rev_app_distr.
  change (list_ascii_of_string ("/" ++ f))
    with ("/"%char :: list_ascii_of_string f).
  change (rev ("/"%char :: list_ascii_of_string f))
    with (rev (list_ascii_of_string f) ++ ["/"%char])%list.
  rewrite <- app_assoc.
  replace (String.length (a ++ "/" ++ f) - 1)
    with (List.length (rev (list_ascii_of_string f)) + String.length a).
  2:{ rewrite length_rev, chars_length, length_append. simpl. lia. }
  rewrite dirname_scan_skip
    by (apply Forall_rev; now apply chars_slash_free).
  destruct f as [| c f']; [discriminate |].
  destruct (rev (list_ascii_of_string (String c f'))) eqn:E.
  { apply (f_equal (@List.length ascii)) in E.
    rewrite length_rev, chars_length in E. discriminate. }
  destruct (String.length a) as [| n] eqn:En; [lia |].
  simpl Path.dirname_scan.
  destruct n as [| n']; [lia |]. simpl.
  rewrite <- En. apply substring_prefix.
Qed.

Lemma abs_of_snoc (segs : list string) (f : string) :
  segs <> [] -> Path.abs_of (segs ++ [f]) = Path.abs_of segs ++ "/" ++ f.
Proof.
  intros H. unfold Path.abs_of. rewrite join_app by congruence.
  now rewrite append_assoc.
Qed.

Lemma abs_of_length (segs : list string) (d : string) :
  Js.is_empty d = false -> 2 <= String.length (Path.abs_of (segs ++ [d])).
Proof.
  intros Hd. destruct segs as [| s segs'].
  - destruct d; [discriminate |]. simpl. lia.
  - rewrite abs_of_snoc by congruence. rewrite !length_append.
    destruct d; [discriminate |]. simpl. lia.
Qed.

(** The root is the parent of the directory that holds the entry module. *)
Lemma projectRoot_parent (ds : list string) (d f cwd_ : string) :
  Forall (fun s => Path.clean s = true) (ds ++ [d; f]) ->
  projectRoot {| module_pathname := Path.abs_of (ds ++ [d; f]); cwd := cwd_ |}
  = Path.abs_of ds.
Proof.
  intros H. apply Forall_app in H as [Hds Hdf].
  inversion Hdf as [| ? ? Hd Hf']; subst.
  inversion Hf' as [| ? ? Hf _]; subst.
  pose proof (clean_inv _ Hd) as (Hd1 & Hd2 & Hd3 & Hd4).
  pose proof (clean_inv _ Hf) as (Hf1 & _ & _ & Hf4).
  unfold projectRoot, modulePath. simpl module_pathname. simpl cwd.
  replace (ds ++ [d; f])%list with ((ds ++ [d]) ++ [f])%list
    by (now rewrite <- app_assoc).
  rewrite abs_of_snoc by (destruct ds; discriminate).
  rewrite dirname_append; auto using abs_of_length.
  rewrite resolve_parent_shape by reflexivity.
  f_equal. unfold Path.normalize_segments.
  rewrite split_slash_append, fold_left_app, fold_split_abs_of.
  2:{ apply Forall_app. split; [assumption | now constructor]. }
  rewrite rev_app_distr. simpl.
  unfold Path.normalize_step at 2. simpl.
  rewrite Hd3. unfold Path.normalize_step. simpl. apply rev_involutive.
Qed.

End RootFacts.

Lemma handle_returns (fs : FileSystem) (process : Process)
    (req : DocumentRequest) (log : Log) :
  exists log',
    handle fs process req log = (Normal (response fs process req), log').
Proof.
  destruct req;
    [apply getOverviewDocFor_returns | apply getDetailedDocFor_returns].
Qed.

Lemma response_of_read (fs : FileSystem) (process : Process)
    (req : DocumentRequest) :
  match read_doc fs (docPath process req) with
  | Normal contents => response fs process req = text_result contents
  | Throw _ =>
      exists t, response fs process req = error_result t
  end.
Proof.
  destruct req as [name | project document]; simpl;
    unfold overview_response, detailed_response.
  - destruct (read_doc fs _); eauto.
  - destruct (read_doc fs _); [reflexivity |].
    destruct (list_dir fs _); eauto.
Qed.

(* ------------------------------------------------------------------------- *)
(** ** C1: a readable document is returned verbatim *)
(* ------------------------------------------------------------------------- *)



(* ------------------------------------------------------------------------- *)
(** ** C2: the document paths *)
(* ------------------------------------------------------------------------- *)

Section JoinOfRoot.

Import StrFacts PathFacts RootFacts.

Lemma projectRoot_nonempty (process : Process) :
  Js.is_empty (projectRoot process) = false.
Proof.
  unfold projectRoot, Path.resolve.
  destruct (Path.resolve_loop _ _ _) as [rp abs].
  destruct abs; [reflexivity |].
  destruct (Js.is_empty (Path.normalizeString rp (negb false))) eqn:E;
    [reflexivity | exact E].
Qed.

(** [normalize] only looks at the first and last character and at the
    segments that survive [normalizeString]. *)
Lemma normalize_congr (a b : string) :
  Js.is_empty a = false -> Js.is_empty b = false ->
  Js.starts_with_slash a = Js.starts_with_slash b ->
  Js.ends_with_slash a = Js.ends_with_slash b ->
  (forall allow,
      fold_left (Path.normalize_step allow) (Js.split_slash a) []
      = fold_left (Path.normalize_step allow) (Js.split_slash b) []) ->
  Path.normalize a = Path.normalize b.
Proof.
  intros Ha Hb Hs He Hf. unfold Path.normalize.
  rewrite Ha, Hb, Hs, He.
  unfold Path.normalizeString, Path.normalize_segments.
  now rewrite Hf.
Qed.

(** [join] of a root, [docs], one request string and a file name is the
    normal form of the four pieces written with separators; an empty
    request string leaves a doubled separator that [normalize] drops. *)
Lemma join_root_docs (root x y : string) :
  Js.is_empty root = false -> Js.is_empty y = false ->
  Path.join [root; "docs"; x; y]
  = Path.normalize (root ++ "/" ++ "docs" ++ "/" ++ x ++ "/" ++ y).
Proof.
  intros Hroot Hy. unfold Path.join.
  cbn [Path.join_args]. rewrite Hroot. cbn [Js.is_empty]. rewrite Hy.
  destruct (Js.is_empty x) eqn:Ex.
  - apply is_empty_true in Ex. subst x.
    apply normalize_congr.
    + now apply is_empty_append.
    + rewrite is_empty_append; [reflexivity |]. reflexivity.
    + rewrite !starts_with_slash_append; auto.
      now apply is_empty_append.
    + rewrite !ends_with_slash_append; auto.
    + intros allow. rewrite !split_slash_append, !fold_left_app.
      reflexivity.
  - f_equal. now rewrite !append_assoc.
Qed.

Lemma overviewDocPath_normalize (process : Process) (name : string) :
  overviewDocPath process name
  = Path.normalize (projectRoot process ++ "/docs/" ++ name ++ "/overview.md").
Proof.
  unfold overviewDocPath.
  rewrite join_root_docs by (apply projectRoot_nonempty || reflexivity).
  reflexivity.
Qed.

Lemma detailedDocPath_normalize (process : Process)
    (project document : string) :
  detailedDocPath process project document
  = Path.normalize (projectRoot process ++ "/docs/" ++ project ++ "/"
                    ++ document ++ ".md").
Proof.
  unfold detailedDocPath.
  rewrite join_root_docs
    by (apply projectRoot_nonempty || now apply is_empty_append).
  reflexivity.
Qed.

End JoinOfRoot.

Section PlainSegments.

Import StrFacts PathFacts RootFacts.

Lemma modulePath_parent (ds : list string) (d f cwd_ : string) :
  Forall (fun s => Path.clean s = true) (ds ++ [d; f]) ->
  modulePath {| module_pathname := Path.abs_of (ds ++ [d; f]); cwd := cwd_ |}
  = Path.abs_of (ds ++ [d]).
Proof.
  intros H. apply Forall_app in H as [Hds Hdf].
  inversion Hdf as [| ? ? Hd Hf']; subst.
  inversion Hf' as [| ? ? Hf _]; subst.
  pose proof (clean_inv _ Hd) as (Hd1 & _).
  pose proof (clean_inv _ Hf) as (Hf1 & _ & _ & Hf4).
  unfold modulePath. simpl module_pathname.
  replace (ds ++ [d; f])%list with ((ds ++ [d]) ++ [f])%list
    by (now rewrite <- app_assoc).
  rewrite abs_of_snoc by (destruct ds; discriminate).
  apply dirname_append; auto using abs_of_length.
Qed.

(** With segments that [normalize] keeps, the joined path is the plain
    concatenation. *)
Lemma join_plain (rs ns : list string) (y : string) :
  rs <> [] -> ns <> [] ->
  Forall (fun s => Path.clean s = true) rs ->
  Forall (fun s => Path.clean s = true) ns ->
  Path.clean y = true ->
  Path.join [Path.abs_of rs; "docs"; Js.join "/" ns; y]
  = Path.abs_of rs ++ "/docs/" ++ Js.join "/" ns ++ "/" ++ y.
Proof.
  intros Hrs Hns Crs Cns Cy.
  pose proof (clean_inv _ Cy) as (Hy & _ & _ & Fy).
  change [Path.abs_of rs; "docs"; Js.join "/" ns; y]
    with (Path.abs_of rs :: ["docs"; Js.join "/" ns] ++ [y])%list.
  rewrite (@join_abs_of_last rs ["docs"; Js.join "/" ns] y Crs Hy).
  rewrite (ends_with_slash_free _ Fy).
  unfold Path.resolved_segments. cbn [flat_map app].
  rewrite app_nil_r.
  change (Js.split_slash "docs") with ["docs"].
  rewrite split_slash_join by (assumption || now apply clean_slash_free).
  rewrite (split_slash_single y Fy).
  rewrite fold_clean.
  2:{ constructor; [reflexivity |].
      apply Forall_app. split; [assumption | now constructor]. }
  rewrite rev_app_distr, !rev_involutive.
  rewrite render_nonempty by (destruct rs; discriminate).
  unfold Path.abs_of.
  rewrite join_app by (assumption || discriminate).
  destruct ns as [| n ns']; [congruence |].
  change (Js.join "/" (["docs"] ++ (n :: ns') ++ [y]))
    with ("docs" ++ "/" ++ Js.join "/" ((n :: ns') ++ [y])).
  rewrite join_app by discriminate.
  rewrite !append_assoc. reflexivity.
Qed.

End PlainSegments.

(** C2.  The entry module is the file [f] in the directory [d] below the
    directories [ds].  Then [modulePath] is that directory, the project
    root is its parent [/ds], and for every [name], [project] and
    [document] the two document paths are the joins
    [<root>/docs/<name>/overview.md] and
    [<root>/docs/<project>/<document>.md], in the normal form that
    [path.join] gives every path it returns. *)
Theorem doc_paths_join_project_root
    (ds : list string) (d f cwd_ name project document : string) :
  Forall (fun s => Path.clean s = true) (ds ++ [d; f]) ->
  let process :=
    {| module_pathname := Path.abs_of (ds ++ [d; f]); cwd := cwd_ |} in
  modulePath process = Path.abs_of (ds ++ [d])
  /\ projectRoot process = Path.abs_of ds
  /\ overviewDocPath process name
     = Path.normalize
         (Path.abs_of ds ++ "/docs/" ++ name ++ "/overview.md")
  /\ detailedDocPath process project document
     = Path.normalize
         (Path.abs_of ds ++ "/docs/" ++ project ++ "/" ++ document
          ++ ".md").
Proof.
  intros H process.
  pose proof (RootFacts.projectRoot_parent ds d f cwd_ H) as Hroot.
  fold process in Hroot.
  split; [now apply modulePath_parent |].
  split; [exact Hroot |].
  rewrite <- Hroot.
  split; [apply overviewDocPath_normalize | apply detailedDocPath_normalize].
Qed.

Lemma doc_paths_join_project_root_witness :
  Forall (fun s => Path.clean s = true) ["app"; "build"; "index.js"]
  /\ modulePath Sample.proc = "/app/build"
  /\ projectRoot Sample.proc = "/app"
  /\ overviewDocPath Sample.proc "sample" = "/app/docs/sample/overview.md"
  /\ detailedDocPath Sample.proc "sample" "tool" = "/app/docs/sample/tool.md".
Proof.
  assert (H : Forall (fun s => Path.clean s = true)
                (["app"] ++ ["build"; "index.js"])%list)
    by (repeat constructor).
  split; [exact H |].
  exact (doc_paths_join_project_root
           ["app"] "build" "index.js" "/app" "sample" "sample" "tool" H).
Defined.

(** For a root other than [/] and request strings made of segments that
    [normalize] keeps, the normal form is the plain concatenation. *)
Lemma overviewDocPath_plain (process : Process) (rs ns : list string) :
  rs <> [] -> ns <> [] ->
  Forall (fun s => Path.clean s = true) rs ->
  Forall (fun s => Path.clean s = true) ns ->
  projectRoot process = Path.abs_of rs ->
  overviewDocPath process (Js.join "/" ns)
  = projectRoot process ++ "/docs/" ++ Js.join "/" ns ++ "/overview.md".
Proof.
  intros Hrs Hns Crs Cns Hroot. unfold overviewDocPath. rewrite Hroot.
  now apply join_plain.
Qed.

Lemma detailedDocPath_plain (process : Process) (rs ns : list string)
    (document : string) :
  rs <> [] -> ns <> [] ->
  Forall (fun s => Path.clean s = true) rs ->
  Forall (fun s => Path.clean s = true) ns ->
  Path.clean (document ++ ".md") = true ->
  projectRoot process = Path.abs_of rs ->
  detailedDocPath process (Js.join "/" ns) document
  = projectRoot process ++ "/docs/" ++ Js.join "/" ns ++ "/" ++ document
    ++ ".md".
Proof.
  intros Hrs Hns Crs Cns Cdoc Hroot. unfold detailedDocPath. rewrite Hroot.
  now apply join_plain.
Qed.

(* ------------------------------------------------------------------------- *)
(** ** C3: where the document paths can lead *)
(* ------------------------------------------------------------------------- *)

Section UnderDocsRoot.

Import StrFacts PathFacts RootFacts.

(** Without a [".."] segment, [normalizeString] only adds to what it
    holds. *)
Lemma fold_no_parent (segs : list string) :
  no_parent_segment segs = true ->
  forall res,
  exists extra,
    fold_left (Path.normalize_step false) segs res = (extra ++ res)%list.
Proof.
  induction segs as [| seg segs IH]; intros H res.
  - exists []. reflexivity.
  - simpl in H. apply andb_prop in H as [Hseg Hsegs].
    apply negb_true_iff in Hseg.
    simpl. unfold Path.normalize_step at 2. rewrite Hseg.
    destruct (Js.is_empty seg || String.eqb seg ".").
    + apply IH. assumption.
    + destruct (IH Hsegs (seg :: res)) as [extra E].
      exists (extra ++ [seg])%list. rewrite E, <- app_assoc. reflexivity.
Qed.

Lemma fold_no_parent_last (segs : list string) (lst : string) :
  no_parent_segment (segs ++ [lst]) = true ->
  Js.is_empty lst = false -> String.eqb lst "." = false ->
  forall res,
  exists extra,
    fold_left (Path.normalize_step false) (segs ++ [lst]) res
    = (lst :: extra ++ res)%list.
Proof.
  intros H Hne Hdot res. unfold no_parent_segment in H.
  rewrite forallb_app in H. apply andb_prop in H as [Hsegs Hlst].
  simpl in Hlst. rewrite andb_true_r in Hlst. apply negb_true_iff in Hlst.
  destruct (fold_no_parent segs Hsegs res) as [extra E].
  exists extra. rewrite fold_left_app, E. simpl.
  unfold Path.normalize_step. now rewrite Hne, Hdot, Hlst.
Qed.

Lemma abs_of_app (xs ys : list string) :
  xs <> [] -> ys <> [] ->
  Path.abs_of (xs ++ ys) = Path.abs_of xs ++ "/" ++ Js.join "/" ys.
Proof.
  intros Hx Hy. unfold Path.abs_of. rewrite join_app by assumption.
  now rewrite append_assoc.
Qed.

Lemma docs_root_shape (rs : list string) :
  Forall (fun s => Path.clean s = true) rs ->
  Path.join [Path.abs_of rs; "docs"] = Path.abs_of (rs ++ ["docs"]).
Proof.
  intros Hrs.
  change [Path.abs_of rs; "docs"] with (Path.abs_of rs :: [] ++ ["docs"])%list.
  rewrite (@join_abs_of_last rs [] "docs" Hrs eq_refl).
  unfold Path.resolved_segments. simpl flat_map.
  rewrite fold_clean by (repeat constructor).
  rewrite rev_app_distr, rev_involutive.
  apply render_nonempty. destruct rs; discriminate.
Qed.

Lemma join_under_docs_root (rs : list string) (x y : string)
    (init : list string) (lst : string) :
  Forall (fun s => Path.clean s = true) rs ->
  Js.is_empty y = false -> Js.ends_with_slash y = false ->
  Js.split_slash y = (init ++ [lst])%list ->
  Js.is_empty lst = false -> String.eqb lst "." = false ->
  no_parent_segment (Js.split_slash x ++ Js.split_slash y) = true ->
  under (Path.join [Path.abs_of rs; "docs"])
        (Path.join [Path.abs_of rs; "docs"; x; y])
  = true.
Proof.
  intros Hrs Hy Hend Hsplit Hlst Hdot Hnp.
  rewrite docs_root_shape by assumption.
  change [Path.abs_of rs; "docs"; x; y]
    with (Path.abs_of rs :: ["docs"; x] ++ [y])%list.
  rewrite (@join_abs_of_last rs ["docs"; x] y Hrs Hy), Hend.
  unfold Path.resolved_segments. cbn [flat_map app].
  change (Js.split_slash "docs") with ["docs"].
  rewrite app_nil_r.
  change (["docs"] ++ Js.split_slash x ++ Js.split_slash y)%list
    with ("docs" :: (Js.split_slash x ++ Js.split_slash y))%list.
  cbn [fold_left].
  change (Path.normalize_step false (rev rs) "docs") with ("docs" :: rev rs).
  rewrite Hsplit, app_assoc in *.
  destruct (fold_no_parent_last _ _ Hnp Hlst Hdot ("docs" :: rev rs))
    as [extra E].
  rewrite E.
  change (lst :: extra ++ "docs" :: rev rs)%list
    with ((lst :: extra) ++ ["docs"] ++ rev rs)%list.
  rewrite !rev_app_distr, rev_involutive.
  change (rev ["docs"]) with ["docs"].
  rewrite render_nonempty by (destruct rs; discriminate).
  rewrite (@abs_of_app (rs ++ ["docs"])%list (rev (lst :: extra))).
  2:{ destruct rs; discriminate. }
  2:{ simpl. intros E'. apply app_eq_nil in E' as [_ E']. discriminate. }
  unfold under. rewrite <- append_assoc. apply prefix_append.
Qed.

Lemma md_suffix_last (document : string) :
  exists init lst,
    Js.split_slash (document ++ ".md") = (init ++ [lst])%list
    /\ Js.is_empty lst = false /\ String.eqb lst "." = false.
Proof.
  exists (removelast (Js.split_slash document)),
         (last (Js.split_slash document) "" ++ ".md").
  split; [now apply split_slash_append_free |].
  split; [now apply is_empty_append |].
  destruct (last (Js.split_slash document) "") as [| c [| c' l]];
    simpl; rewrite ?andb_false_r; try reflexivity.
  all: destruct (Ascii.eqb c "."); reflexivity.
Qed.

End UnderDocsRoot.

(** C3, as stated, fails: nothing removes or rejects a [".."] segment, and
    [path.join] resolves it lexically.  With the root [/app], the name
    [".."] makes [getOverviewDocFor] read [/app/overview.md], and the
    project [".."] with the document ["secret"] makes [getDetailedDocFor]
    return the contents of [/app/secret.md]; neither path is below
    [/app/docs]. *)
Lemma doc_path_escapes_docs_root :
  docs_root Sample.proc = "/app/docs"
  /\ docPath Sample.proc (OverviewRequest "..") = "/app/overview.md"
  /\ under (docs_root Sample.proc) (docPath Sample.proc (OverviewRequest ".."))
     = false
  /\ docPath Sample.proc (DetailRequest ".." "secret") = "/app/secret.md"
  /\ under (docs_root Sample.proc)
           (docPath Sample.proc (DetailRequest ".." "secret"))
     = false
  /\ fst (Sample.run (getDetailedDocFor Sample.fs Sample.proc ".." "secret"))
     = Normal (text_result "top secret").
Proof. repeat split; reflexivity. Qed.

(** C3, amended.  When the module path is absolute and none of the
    segments that the request contributes ([name]; [project] and
    [document + ".md"]) is [".."], the document path lies below
    [<root>/docs]. *)
Theorem doc_path_under_docs_root
    (process : Process) (req : DocumentRequest) :
  Js.starts_with_slash (module_pathname process) = true ->
  no_parent_segment (request_segments req) = true ->
  under (docs_root process) (docPath process req) = true.
Proof.
  intros Habs Hnp.
  destruct (RootFacts.projectRoot_shape process Habs) as (rs & Hrs & Hroot).
  unfold docs_root. destruct req as [name | project document]; simpl docPath.
  - unfold overviewDocPath. rewrite Hroot.
    apply (@join_under_docs_root rs name "overview.md" [] "overview.md");
      try reflexivity; try assumption.
    simpl in Hnp. unfold no_parent_segment in *.
    rewrite forallb_app, Hnp. reflexivity.
  - unfold detailedDocPath. rewrite Hroot.
    destruct (md_suffix_last document) as (init & lst & Hs & Hl & Hd).
    apply (@join_under_docs_root rs project (document ++ ".md") init lst);
      try assumption.
    + now apply StrFacts.is_empty_append.
    + now rewrite StrFacts.ends_with_slash_append.
Qed.

Lemma doc_path_under_docs_root_witness :
  Js.starts_with_slash (module_pathname Sample.proc) = true
  /\ no_parent_segment (request_segments (DetailRequest "sample" "tool")) = true
  /\ under (docs_root Sample.proc)
           (docPath Sample.proc (DetailRequest "sample" "tool")) = true.
Proof.
  split; [reflexivity |]. split; [reflexivity |].
  apply (doc_path_under_docs_root Sample.proc (DetailRequest "sample" "tool"));
    reflexivity.
Defined.

(* ------------------------------------------------------------------------- *)
(** ** C4: what [getOverviewDocFor] reports on failure *)
(* ------------------------------------------------------------------------- *)

Section OverviewFailure.

Variable fs : FileSystem.
Variable process : Process.

Lemma overview_listing_logs_files (name : string) (files : list string)
    (log : Log) :
  readdir fs (Path.join [cwd process; "docs"]) = Normal files ->
  exists more,
    overview_listing fs process name log
    = (Normal tt,
       (log ++ ("Files in docs directory: "
                ++ Js.JSON_stringify files)%string :: more)%list).
Proof.
  intros H.
  unfold overview_listing, try_catch, bind, console_error, await, ret.
  rewrite H.
  destruct (Js.includes name files).
  - destruct (readdir fs (Path.join [Path.join [cwd process; "docs"]; name]))
      as [subFiles | e];
      eexists [_]; rewrite <- app_assoc; reflexivity.
  - exists []. reflexivity.
Qed.

Lemma getOverviewDocFor_failure (name : string) (e : Thrown) (log : Log) :
  read_doc fs (overviewDocPath process name) = Throw e ->
  exists log0,
    getOverviewDocFor fs process name log
    = (Normal (error_result (overview_error_text name (message_of e))),
       snd (overview_listing fs process name log0)).
Proof.
  unfold read_doc, getOverviewDocFor. run_monad.
  destruct (access fs (overviewDocPath process name)) as [[] | e0].
  - destruct (readFile fs (overviewDocPath process name)) as [c | e1];
      [discriminate |].
    intros [= ->].
    match goal with
    | |- context [overview_listing fs process name ?l] =>
        exists l; destruct (overview_listing_returns fs process name l)
          as [log' H]; rewrite H; reflexivity
    end.
  - intros [= ->].
    match goal with
    | |- context [overview_listing fs process name ?l] =>
        exists l; destruct (overview_listing_returns fs process name l)
          as [log' H]; rewrite H; reflexivity
    end.
Qed.

End OverviewFailure.

(** C4, as stated, fails: the listing never reaches the response.  In the
    sample installation [docs/bare/] holds only [tool.md]; the overview of
    [bare] cannot be read, the listing of [docs/bare] is available and is
    written to the log, and the response text does not mention [tool.md]. *)
Lemma overview_error_omits_listing :
  readdir Sample.fs "/app/docs/bare" = Normal ["tool.md"]
  /\ Sample.run (getOverviewDocFor Sample.fs Sample.proc "bare")
     = (Normal
          (error_result
             ("Error: Could not find overview document for " ++ Js.dq
              ++ "bare" ++ Js.dq ++ ". "
              ++ "ENOENT: no such file or directory, access "
              ++ "'/app/docs/bare/overview.md'")),
        ["Module path: /app/build";
         "Project root: /app";
         "Attempting to read file at: /app/docs/bare/overview.md";
         "Error reading doc: ENOENT: no such file or directory, access "
         ++ "'/app/docs/bare/overview.md'";
         "Files in docs directory: [" ++ Js.dq ++ "sample" ++ Js.dq ++ ","
         ++ Js.dq ++ "bare" ++ Js.dq ++ "]";
         "Files in docs/bare directory: [" ++ Js.dq ++ "tool.md" ++ Js.dq
         ++ "]"])
  /\ Js.str_includes "tool.md"
       (overview_error_text "bare"
          ("ENOENT: no such file or directory, access "
           ++ "'/app/docs/bare/overview.md'"))
     = false.
Proof. repeat split; reflexivity. Qed.

(** C4, amended.  When the existence check or the read of the resolved file
    throws, [getOverviewDocFor] returns normally the error response whose
    text is [Error: Could not find overview document for "<name>". ]
    followed by the failure message, whatever [readdir] answers; a listing
    of [<cwd>/docs], when available, is written to the log only. *)
Theorem overview_error_embeds_name_and_message
    (fs : FileSystem) (process : Process) (name : string) (e : Thrown)
    (log : Log) :
  read_doc fs (overviewDocPath process name) = Throw e ->
  (forall listing : string -> Completion (list string),
    exists log',
      getOverviewDocFor
        {| access := access fs; readFile := readFile fs; readdir := listing |}
        process name log
      = (Normal
           {| content :=
                [{| type := "text";
                    text := "Error: Could not find overview document for "
                            ++ Js.dq ++ name ++ Js.dq ++ ". "
                            ++ message_of e |}];
              isError := Some true |}, log')
      /\ forall files,
           listing (Path.join [cwd process; "docs"]) = Normal files ->
           In ("Files in docs directory: " ++ Js.JSON_stringify files) log').
Proof.
  intros Hread listing.
  set (fs' := {| access := access fs; readFile := readFile fs;
                 readdir := listing |}).
  destruct (getOverviewDocFor_failure fs' process name log (e := e))
    as [log0 H]; [exact Hread |].
  eexists. split; [exact H |].
  intros files Hfiles.
  destruct (overview_listing_logs_files fs' process name log0 (files := files))
    as [more Hl]; [exact Hfiles |].
  rewrite Hl. simpl. apply in_or_app. right. left. reflexivity.
Qed.

Lemma overview_error_embeds_name_and_message_witness :
  read_doc Sample.fs (overviewDocPath Sample.proc "bare")
  = Throw (Tree.enoent "access" "/app/docs/bare/overview.md")
  /\ exists log',
       getOverviewDocFor Sample.fs Sample.proc "bare" []
       = (Normal
            {| content :=
                 [{| type := "text";
                     text := "Error: Could not find overview document for "
                             ++ Js.dq ++ "bare" ++ Js.dq ++ ". "
                             ++ "ENOENT: no such file or directory, access "
                             ++ "'/app/docs/bare/overview.md'" |}];
               isError := Some true |}, log').
Proof.
  split; [reflexivity |].
  destruct (overview_error_embeds_name_and_message
              Sample.fs Sample.proc "bare" []
              (e := Tree.enoent "access" "/app/docs/bare/overview.md")
              eq_refl (readdir Sample.fs)) as (log' & H & _).
  exists log'. exact H.
Defined.

(* ------------------------------------------------------------------------- *)
(** ** C5 and C6: what [getDetailedDocFor] reports on failure *)
(* ------------------------------------------------------------------------- *)



(** C6, as stated, fails: [docs/ghost/] does not exist in the sample
    installation, yet the document ["../sample/tool"] of the project
    ["ghost"] resolves to [docs/sample/tool.md], which is read and returned
    without [isError]. *)
Lemma missing_project_can_succeed :
  Tree.exists_at Sample.disk "/app" (projectDir Sample.proc "ghost") = false
  /\ detailedDocPath Sample.proc "ghost" "../sample/tool"
     = "/app/docs/sample/tool.md"
  /\ fst (Sample.run
            (getDetailedDocFor Sample.fs Sample.proc "ghost" "../sample/tool"))
     = Normal {| content := [{| type := "text"; text := "# Tools" |}];
                 isError := None |}.
Proof. repeat split; reflexivity. Qed.

(* ------------------------------------------------------------------------- *)
(** ** C7 and C10: the handlers always return, with a well-shaped response *)
(* ------------------------------------------------------------------------- *)

(** C7.  Whatever the three file system calls answer or throw, each
    handler returns normally: nothing is thrown out of it.  When the
    existence check or the read of the document throws, what it returns is
    an error response, [isError: true] with one text item. *)
Theorem handler_never_throws
    (fs : FileSystem) (process : Process) (req : DocumentRequest)
    (log : Log) :
  exists (r : ToolResult) (log' : Log),
    handle fs process req log = (Normal r, log')
    /\ match read_doc fs (docPath process req) with
       | Normal contents => r = text_result contents
       | Throw _ => exists t, r = error_result t
       end.
Proof.
  destruct (handle_returns fs process req log) as [log' H].
  exists (response fs process req), log'.
  split; [exact H | apply response_of_read].
Qed.

(** C10.  The response of either handler has exactly one content item, of
    type ["text"]; [isError] is [true] when the existence check or the read
    of the document threw, and absent otherwise. *)
Theorem response_shape
    (fs : FileSystem) (process : Process) (req : DocumentRequest)
    (log : Log) :
  exists (r : ToolResult) (log' : Log) (item : ContentItem),
    handle fs process req log = (Normal r, log')
    /\ content r = [item]
    /\ type item = "text"
    /\ isError r = match read_doc fs (docPath process req) with
                   | Normal _ => None
                   | Throw _ => Some true
                   end.
Proof.
  destruct (handle_returns fs process req log) as [log' H].
  pose proof (response_of_read fs process req) as R.
  destruct (read_doc fs (docPath process req)) as [contents | e].
  - exists (response fs process req), log',
           {| type := "text"; text := contents |}.
    rewrite R in *. repeat split; auto.
  - destruct R as [t R].
    exists (response fs process req), log', {| type := "text"; text := t |}.
    rewrite R in *. repeat split; auto.
Qed.

(* ------------------------------------------------------------------------- *)
(** ** C8: an overview request for a namespace that does not exist *)
(* ------------------------------------------------------------------------- *)

Section MissingNamespace.

Import StrFacts PathFacts RootFacts.

Lemma walk_app (a b : list string) :
  forall ancestors cur,
    Tree.walk ancestors cur (a ++ b)
    = match Tree.walk ancestors cur a with
      | Tree.Found ancestors' n => Tree.walk ancestors' n b
      | other => other
      end.
Proof.
  induction a as [| seg a IH]; intros ancestors cur; [reflexivity |].
  simpl. destruct cur as [contents | entries]; [reflexivity |].
  destruct (Js.is_empty seg || String.eqb seg "."); [apply IH |].
  destruct (String.eqb seg "..").
  - destruct ancestors; apply IH.
  - destruct (Tree.find_entry seg entries); [apply IH | reflexivity].
Qed.

Lemma split_abs_of (segs : list string) :
  segs <> [] -> Forall (fun s => Path.clean s = true) segs ->
  Js.split_slash (Path.abs_of segs) = "" :: segs.
Proof.
  intros Hne Hc. unfold Path.abs_of.
  change (Js.split_slash ("/" ++ Js.join "/" segs))
    with ("" :: Js.split_slash (Js.join "/" segs)).
  now rewrite split_slash_join by (assumption || now apply clean_slash_free).
Qed.

(** A rendered path splits into the empty piece before the leading
    separator, its segments and, possibly, an empty piece after a trailing
    separator. *)
Lemma split_render (segs : list string) (b : bool) :
  Forall (fun s => Path.clean s = true) segs ->
  exists t,
    (t = [] \/ t = [""])
    /\ Js.split_slash (Path.render segs b) = ("" :: segs ++ t)%list.
Proof.
  intros Hc. destruct segs as [| s segs'].
  - exists [""]. split; [now right | reflexivity].
  - unfold Path.render. destruct b.
    + exists [""]. split; [now right |].
      change (Path.abs_of (s :: segs') ++ "/")
        with (Path.abs_of (s :: segs') ++ "/" ++ "").
      rewrite split_slash_append, split_abs_of by (congruence || assumption).
      reflexivity.
    + exists []. split; [now left |].
      rewrite split_abs_of by (congruence || assumption).
      now rewrite app_nil_r.
Qed.

Lemma render_absolute (segs : list string) (b : bool) :
  Js.starts_with_slash (Path.render segs b) = true.
Proof. destruct segs, b; reflexivity. Qed.

Lemma resolved_segments_snoc (rs args : list string) (y : string) :
  Path.clean y = true ->
  Path.resolved_segments rs (args ++ [y])
  = (Path.resolved_segments rs args ++ [y])%list.
Proof.
  intros Hy. unfold Path.resolved_segments.
  rewrite flat_map_app, fold_left_app. simpl flat_map.
  rewrite (split_slash_single y) by (now apply clean_inv in Hy).
  simpl. now rewrite step_clean.
Qed.

Variable root : Tree.node.
Variable process : Process.
Hypothesis module_absolute :
  Js.starts_with_slash (module_pathname process) = true.



End MissingNamespace.



(* ------------------------------------------------------------------------- *)
(** ** C5 and C6 on a directory tree: the project directory exists or not *)
(* ------------------------------------------------------------------------- *)

Section ProjectDirectory.

Import StrFacts PathFacts RootFacts.

Variable root : Tree.node.
Variable cwd_ : string.

Lemma missing_path_throws (path : string) :
  Tree.exists_at root cwd_ path = false ->
  exists e, read_doc (Tree.fs root cwd_) path = Throw e.
Proof.
  unfold Tree.exists_at, read_doc. simpl. unfold Tree.tree_access.
  destruct (Tree.lookup root cwd_ path); [discriminate | eauto | eauto].
Qed.


Lemma not_directory_listing_throws (dir : string) :
  Tree.is_directory root cwd_ dir = false ->
  exists e, list_dir (Tree.fs root cwd_) dir = Throw e.
Proof.
  unfold Tree.is_directory, list_dir. simpl.
  unfold Tree.tree_access, Tree.tree_readdir.
  destruct (Tree.lookup root cwd_ dir) as [anc [c | es] | |];
    [eauto | discriminate | eauto | eauto].
Qed.

Lemma walk_from_file (anc : list Tree.node) (c : string)
    (segs : list string) :
  segs <> [] -> Tree.walk anc (Tree.File c) segs = Tree.NotDirectory.
Proof. destruct segs; [congruence | reflexivity]. Qed.

(** Without a directory at [/rs/docs/<project>], and with no [".."] among
    the pieces of [document + ".md"], nothing exists at the document
    path. *)
Lemma no_project_no_document (rs : list string) (project document : string) :
  Forall (fun s => Path.clean s = true) rs ->
  no_parent_segment (Js.split_slash (document ++ ".md")) = true ->
  Tree.is_directory root cwd_ (Path.join [Path.abs_of rs; "docs"; project])
  = false ->
  Tree.exists_at root cwd_
    (Path.join [Path.abs_of rs; "docs"; project; document ++ ".md"])
  = false.
Proof.
  intros Hrs Hnp Hdir.
  destruct (@join_abs_of rs ["docs"; project] Hrs) as (j & _ & Hj).
  rewrite Hj in Hdir.
  change [Path.abs_of rs; "docs"; project; document ++ ".md"]
    with (Path.abs_of rs
          :: ["docs"; project] ++ [(document ++ ".md")%string])%list.
  rewrite (@join_abs_of_last rs ["docs"; project] (document ++ ".md") Hrs)
    by (now apply is_empty_append).
  rewrite ends_with_slash_append by reflexivity.
  change (Js.ends_with_slash ".md") with false.
  pose proof (@resolved_segments_clean rs
                (["docs"; project] ++ [(document ++ ".md")%string]) Hrs)
    as Hall.
  pose proof (@resolved_segments_clean rs ["docs"; project] Hrs) as Hc.
  assert (Hsegs : exists extra,
             extra <> []
             /\ Path.resolved_segments rs
                  (["docs"; project] ++ [(document ++ ".md")%string])
                = (Path.resolved_segments rs ["docs"; project] ++ extra)%list).
  { destruct (md_suffix_last document) as (init & lst & Hs & Hl & Hd).
    unfold Path.resolved_segments.
    rewrite flat_map_app, fold_left_app. simpl flat_map at 1.
    rewrite app_nil_r, Hs. rewrite Hs in Hnp.
    destruct (fold_no_parent_last _ _ Hnp Hl Hd
                (fold_left (Path.normalize_step false)
                   (flat_map Js.split_slash ["docs"; project]) (rev rs)))
      as [extra E].
    rewrite E. exists (rev (lst :: extra)). split.
    - simpl. intros E'. apply app_eq_nil in E' as [_ E']. discriminate.
    - change (lst :: extra ++ ?x)%list with ((lst :: extra) ++ x)%list.
      now rewrite rev_app_distr. }
  destruct Hsegs as (extra & Hne & Hsegs). rewrite Hsegs in *.
  set (S := Path.resolved_segments rs ["docs"; project]) in *.
  destruct (split_render (Js.ends_with_slash j) Hc) as (t & Ht & Hsplit).
  unfold Tree.is_directory, Tree.exists_at, Tree.lookup in *.
  rewrite render_absolute in *. rewrite Hsplit in Hdir.
  rewrite render_nonempty by (destruct S; [assumption | discriminate]).
  rewrite split_abs_of
    by (assumption || (destruct S; [assumption | discriminate])).
  change ("" :: S ++ t)%list with (("" :: S) ++ t)%list in Hdir.
  change ("" :: S ++ extra)%list with (("" :: S) ++ extra)%list.
  rewrite walk_app in *.
  destruct (Tree.walk [] root ("" :: S)) as [a n | |]; try reflexivity.
  destruct n as [c | es].
  - now rewrite walk_from_file.
  - destruct Ht as [-> | ->]; discriminate.
Qed.

End ProjectDirectory.



(** C6, amended.  The entry module is [/ds/d/f].  On a directory tree in
    which [/ds/docs/<project>] is not a directory, and for a [document]
    such that no piece of [document + ".md"] is [".."],
    [getDetailedDocFor] returns normally the error response
    [Error: Could not find project "<project>" or document
    "<document>.md". ] followed by the message of the failed existence
    check: the document cannot exist, the failure of the listing is caught,
    and no listing appears in the text. *)
Theorem detailed_error_without_listing
    (root : Tree.node) (ds : list string)
    (d f cwd_ project document : string) (log : Log) :
  Forall (fun s => Path.clean s = true) (ds ++ [d; f]) ->
  no_parent_segment (Js.split_slash (document ++ ".md")) = true ->
  Tree.is_directory root cwd_ (Path.join [Path.abs_of ds; "docs"; project])
  = false ->
  exists (message : string) (log' : Log),
    getDetailedDocFor (Tree.fs root cwd_)
      {| module_pathname := Path.abs_of (ds ++ [d; f]); cwd := cwd_ |}
      project document log
    = (Normal
         {| content :=
              [{| type := "text";
                  text := "Error: Could not find project " ++ Js.dq
                          ++ project ++ Js.dq ++ " or document " ++ Js.dq
                          ++ document ++ ".md" ++ Js.dq ++ ". "
                          ++ message |}];
            isError := Some true |}, log').
Proof.
  intros Hmod Hnp Hdir.
  set (process :=
         {| module_pathname := Path.abs_of (ds ++ [d; f]); cwd := cwd_ |}).
  pose proof (RootFacts.projectRoot_parent ds d f cwd_ Hmod) as Hroot.
  fold process in Hroot.
  assert (Hds : Forall (fun s => Path.clean s = true) ds)
    by (now apply Forall_app in Hmod as [Hds _]).
  assert (Hpd : projectDir process project
                = Path.join [Path.abs_of ds; "docs"; project])
    by (unfold projectDir; now rewrite Hroot).
  assert (Hdp : detailedDocPath process project document
                = Path.join [Path.abs_of ds; "docs"; project;
                             document ++ ".md"])
    by (unfold detailedDocPath; now rewrite Hroot).
  pose proof (no_project_no_document root cwd_ project document Hds Hnp Hdir)
    as Hmissing.
  destruct (missing_path_throws root cwd_ _ Hmissing) as [e He].
  destruct (not_directory_listing_throws root cwd_ _ Hdir) as [e' He'].
  destruct (getDetailedDocFor_returns (Tree.fs root cwd_) process
              project document log) as [log' H].
  exists (message_of e), log'.
  rewrite H. unfold detailed_response. now rewrite Hdp, Hpd, He, He'.
Qed.

Lemma detailed_error_without_listing_witness :
  Forall (fun s => Path.clean s = true) ["app"; "build"; "index.js"]
  /\ no_parent_segment (Js.split_slash "tool.md") = true
  /\ Tree.is_directory Sample.disk "/srv" "/app/docs/ghost" = false
  /\ exists (message : string) (log' : Log),
       getDetailedDocFor (Tree.fs Sample.disk "/srv")
         {| module_pathname := "/app/build/index.js"; cwd := "/srv" |}
         "ghost" "tool" []
       = (Normal
            (error_result (detailed_missing_text "ghost" "tool" message)),
          log').
Proof.
  assert (H : Forall (fun s => Path.clean s = true)
                (["app"] ++ ["build"; "index.js"])%list)
    by (repeat constructor).
  split; [exact H |]. split; [reflexivity |]. split; [reflexivity |].
  exact (detailed_error_without_listing
           Sample.disk ["app"] "build" "index.js" "/srv" "ghost" "tool" []
           H eq_refl eq_refl).
Defined.

(* ------------------------------------------------------------------------- *)
(** ** C9: what the parameter shapes check *)
(* ------------------------------------------------------------------------- *)

(** C9, as stated, fails: [z.string()] carries no minimum length, so empty
    strings pass the shapes and the handler bodies run on them;
    [getOverviewDocFor("")] goes on to look for [/app/docs/overview.md]. *)
Lemma empty_strings_reach_the_handlers :
  call_getOverviewDocFor Sample.fs Sample.proc
    (Zod.JObject [("name", Zod.JString "")])
  = Handled (getOverviewDocFor Sample.fs Sample.proc "")
  /\ call_getDetailedDocFor Sample.fs Sample.proc
       (Zod.JObject [("project", Zod.JString "");
                     ("document", Zod.JString "")])
     = Handled (getDetailedDocFor Sample.fs Sample.proc "" "")
  /\ fst (Sample.run (getOverviewDocFor Sample.fs Sample.proc ""))
     = Normal
         (error_result
            ("Error: Could not find overview document for " ++ Js.dq ++ Js.dq
             ++ ". ENOENT: no such file or directory, access "
             ++ "'/app/docs/overview.md'")).
Proof. repeat split; reflexivity. Qed.

(** C9, amended.  The shapes check only that each declared parameter is
    present and is a string.  Every string, the empty one included, is
    accepted and handed unchanged to the handler body; a call is rejected
    before the body runs exactly when a declared parameter is missing or is
    not a string. *)
Theorem shapes_accept_exactly_strings
    (fs : FileSystem) (process : Process)
    (fields : list (string * Zod.json)) :
  (forall name,
      Zod.property "name" fields = Some (Zod.JString name) ->
      call_getOverviewDocFor fs process (Zod.JObject fields)
      = Handled (getOverviewDocFor fs process name))
  /\ (call_getOverviewDocFor fs process (Zod.JObject fields) = Rejected
      <-> forall name,
            Zod.property "name" fields <> Some (Zod.JString name))
  /\ (forall project document,
         Zod.property "project" fields = Some (Zod.JString project) ->
         Zod.property "document" fields = Some (Zod.JString document) ->
         call_getDetailedDocFor fs process (Zod.JObject fields)
         = Handled (getDetailedDocFor fs process project document))
  /\ (call_getDetailedDocFor fs process (Zod.JObject fields) = Rejected
      <-> (forall project,
              Zod.property "project" fields <> Some (Zod.JString project))
          \/ (forall document,
                 Zod.property "document" fields
                 <> Some (Zod.JString document))).
Proof.
  unfold call_getOverviewDocFor, call_getDetailedDocFor,
    Zod.overview_shape, Zod.detailed_shape, Zod.string_.
  repeat split.
  - intros name ->. reflexivity.
  - destruct (Zod.property "name" fields) as [[] |];
      intros H name; congruence.
  - intros H. destruct (Zod.property "name" fields) as [[| | | s | |] |];
      try reflexivity.
    now destruct (H s).
  - intros project document -> ->. reflexivity.
  - destruct (Zod.property "project" fields) as [[| | | p | |] |];
      try (intros _; left; congruence).
    destruct (Zod.property "document" fields) as [[| | | d | |] |];
      try (intros _; right; congruence).
    discriminate.
  - intros [H | H].
    + destruct (Zod.property "project" fields) as [[| | | p | |] |];
        try reflexivity.
      now destruct (H p).
    + destruct (Zod.property "project" fields) as [[| | | p | |] |];
        try reflexivity.
      destruct (Zod.property "document" fields) as [[| | | d | |] |];
        try reflexivity.
      now destruct (H d).
Qed.

Lemma shapes_accept_exactly_strings_witness :
  Zod.property "name" [("name", Zod.JString "")] = Some (Zod.JString "")
  /\ call_getOverviewDocFor Sample.fs Sample.proc
       (Zod.JObject [("name", Zod.JString "")])
     = Handled (getOverviewDocFor Sample.fs Sample.proc "").
Proof.
  split; [reflexivity |].
  apply (shapes_accept_exactly_strings Sample.fs Sample.proc
           [("name", Zod.JString "")]).
  reflexivity.
Defined.

(* ------------------------------------------------------------------------- *)
(** ** Further properties: what the handlers consult and what they log *)
(* ------------------------------------------------------------------------- *)

(** X1.  [getOverviewDocFor] consults the file system at three places only: the
    document path (existence check and read), [<cwd>/docs] and
    [<cwd>/docs/<name>] (listings).  Two file systems that answer alike
    there give the same response and the same log. *)
Theorem getOverviewDocFor_consults_only
    (fs1 fs2 : FileSystem) (process : Process) (name : string) (log : Log) :
  access fs1 (overviewDocPath process name)
  = access fs2 (overviewDocPath process name) ->
  readFile fs1 (overviewDocPath process name)
  = readFile fs2 (overviewDocPath process name) ->
  readdir fs1 (Path.join [cwd process; "docs"])
  = readdir fs2 (Path.join [cwd process; "docs"]) ->
  readdir fs1 (Path.join [Path.join [cwd process; "docs"]; name])
  = readdir fs2 (Path.join [Path.join [cwd process; "docs"]; name]) ->
  getOverviewDocFor fs1 process name log
  = getOverviewDocFor fs2 process name log.
Proof.
  intros Ha Hr Hd Hs.
  unfold getOverviewDocFor, overview_listing, try_catch, bind,
    console_error, await, ret.
  now rewrite Ha, Hr, Hd, Hs.
Qed.

Lemma getOverviewDocFor_consults_only_witness :
  getOverviewDocFor Sample.fs Sample.proc "bare" []
  = getOverviewDocFor
      {| access := access Sample.fs;
         readFile := readFile Sample.fs;
         readdir := fun p =>
           if String.eqb p "/app/docs/sample" then Normal ["mine.md"]
           else readdir Sample.fs p |}
      Sample.proc "bare" [].
Proof.
  apply getOverviewDocFor_consults_only; reflexivity.
Defined.

(** X2.  [getDetailedDocFor] consults the file system at two places only: the
    document path (existence check and read) and [<root>/docs/<project>]
    (existence check and listing). *)
Theorem getDetailedDocFor_consults_only
    (fs1 fs2 : FileSystem) (process : Process) (project document : string)
    (log : Log) :
  access fs1 (detailedDocPath process project document)
  = access fs2 (detailedDocPath process project document) ->
  readFile fs1 (detailedDocPath process project document)
  = readFile fs2 (detailedDocPath process project document) ->
  access fs1 (projectDir process project)
  = access fs2 (projectDir process project) ->
  readdir fs1 (projectDir process project)
  = readdir fs2 (projectDir process project) ->
  getDetailedDocFor fs1 process project document log
  = getDetailedDocFor fs2 process project document log.
Proof.
  intros Ha Hr Hpa Hpd.
  unfold getDetailedDocFor, try_catch, bind, console_error, await, ret.
  now rewrite Ha, Hr, Hpa, Hpd.
Qed.

Lemma getDetailedDocFor_consults_only_witness :
  getDetailedDocFor Sample.fs Sample.proc "bare" "resource" []
  = getDetailedDocFor
      {| access := access Sample.fs;
         readFile := readFile Sample.fs;
         readdir := fun p =>
           if String.eqb p "/app/docs" then Throw (OtherValue "denied")
           else readdir Sample.fs p |}
      Sample.proc "bare" "resource" [].
Proof.
  apply getDetailedDocFor_consults_only; reflexivity.
Defined.

Section ErrorTexts.

Import StrFacts.

Lemma str_includes_self (t : string) : Js.str_includes t t = true.
Proof.
  pose proof (str_includes_middle t "" "") as H.
  simpl in H. now rewrite append_nil_r in H.
Qed.

Lemma str_includes_head (t rest : string) :
  Js.str_includes t (t ++ rest) = true.
Proof. exact (str_includes_middle t "" rest). Qed.

Lemma overview_error_text_mentions (name message : string) :
  Js.str_includes name (overview_error_text name message) = true
  /\ Js.str_includes message (overview_error_text name message) = true.
Proof.
  unfold overview_error_text. split.
  - do 2 apply str_includes_append_l. apply str_includes_head.
  - do 5 apply str_includes_append_l. apply str_includes_self.
Qed.

Lemma detailed_listing_text_mentions (project document message : string)
    (files : list string) :
  Js.str_includes project
    (detailed_listing_text project document files message) = true
  /\ Js.str_includes (document ++ ".md")
       (detailed_listing_text project document files message) = true
  /\ Js.str_includes message
       (detailed_listing_text project document files message) = true.
Proof.
  unfold detailed_listing_text. repeat split.
  - do 7 apply str_includes_append_l. apply str_includes_head.
  - do 2 apply str_includes_append_l.
    rewrite <- (append_assoc document ".md"). apply str_includes_head.
  - do 14 apply str_includes_append_l. apply str_includes_self.
Qed.

Lemma detailed_missing_text_mentions (project document message : string) :
  Js.str_includes project
    (detailed_missing_text project document message) = true
  /\ Js.str_includes (document ++ ".md")
       (detailed_missing_text project document message) = true
  /\ Js.str_includes message
       (detailed_missing_text project document message) = true.
Proof.
  unfold detailed_missing_text. repeat split.
  - do 2 apply str_includes_append_l. apply str_includes_head.
  - do 6 apply str_includes_append_l.
    rewrite <- (append_assoc document ".md"). apply str_includes_head.
  - do 10 apply str_includes_append_l. apply str_includes_self.
Qed.

End ErrorTexts.

(** X4.  Whenever the existence check or the read of the document throws, the
    text of the error response contains the message of what was thrown and
    every string of the request as it was given: [name] for
    [getOverviewDocFor]; [project] and [document + ".md"] for
    [getDetailedDocFor], with or without the listing. *)
Theorem error_text_names_request_and_message
    (fs : FileSystem) (process : Process) (req : DocumentRequest)
    (e : Thrown) (log : Log) :
  read_doc fs (docPath process req) = Throw e ->
  exists (t : string) (log' : Log),
    handle fs process req log = (Normal (error_result t), log')
    /\ Js.str_includes (message_of e) t = true
    /\ match req with
       | OverviewRequest name => Js.str_includes name t = true
       | DetailRequest project document =>
           Js.str_includes project t = true
           /\ Js.str_includes (document ++ ".md") t = true
       end.
Proof.
  intros Hread.
  destruct (handle_returns fs process req log) as [log' H].
  destruct req as [name | project document]; simpl in *.
  - exists (overview_error_text name (message_of e)), log'.
    rewrite H. unfold overview_response. rewrite Hread.
    destruct (overview_error_text_mentions name (message_of e)); auto.
  - unfold detailed_response in H. rewrite Hread in H.
    destruct (list_dir fs (projectDir process project)) as [files | e'].
    + exists (detailed_listing_text project document files (message_of e)),
             log'.
      destruct (detailed_listing_text_mentions project document
                  (message_of e) files) as (? & ? & ?); auto.
    + exists (detailed_missing_text project document (message_of e)), log'.
      destruct (detailed_missing_text_mentions project document
                  (message_of e)) as (? & ? & ?); auto.
Qed.

Lemma error_text_names_request_and_message_witness :
  read_doc Sample.fs (docPath Sample.proc (DetailRequest "ghost" "tool"))
  = Throw (Tree.enoent "access" "/app/docs/ghost/tool.md")
  /\ exists (t : string) (log' : Log),
       handle Sample.fs Sample.proc (DetailRequest "ghost" "tool") []
       = (Normal (error_result t), log')
       /\ Js.str_includes
            ("ENOENT: no such file or directory, access "
             ++ "'/app/docs/ghost/tool.md'") t = true
       /\ Js.str_includes "ghost" t = true
       /\ Js.str_includes "tool.md" t = true.
Proof.
  split; [reflexivity |].
  exact (error_text_names_request_and_message
           Sample.fs Sample.proc (DetailRequest "ghost" "tool") []
           (e := Tree.enoent "access" "/app/docs/ghost/tool.md") eq_refl).
Defined.

(* ------------------------------------------------------------------------- *)
(** ** Further properties: the shape of the document paths *)
(* ------------------------------------------------------------------------- *)

Section DocPathShape.

Import StrFacts PathFacts RootFacts.

Lemma slash_free_append (a b : string) :
  Js.slash_free a = true -> Js.slash_free b = true ->
  Js.slash_free (a ++ b) = true.
Proof.
  intros Ha Hb. induction a as [| c a IH]; [exact Hb |].
  simpl in *. apply andb_prop in Ha as [Hc Ha]. now rewrite Hc, IH.
Qed.

Lemma md_name_clean (l : string) :
  Js.slash_free l = true -> Path.clean (l ++ ".md") = true.
Proof.
  intros Hl. unfold Path.clean, Path.is_dots.
  rewrite is_empty_append by reflexivity.
  rewrite slash_free_append by (assumption || reflexivity).
  destruct (String.eqb_spec (l ++ ".md") ".") as [E | _].
  { apply (f_equal String.length) in E. rewrite length_append in E.
    simpl in E. lia. }
  destruct (String.eqb_spec (l ++ ".md") "..") as [E | _].
  { apply (f_equal String.length) in E. rewrite length_append in E.
    simpl in E. lia. }
  reflexivity.
Qed.

Lemma last_slash_free (s : string) :
  Js.slash_free (last (Js.split_slash s) "") = true.
Proof.
  pose proof (split_slash_slash_free s) as H.
  destruct (split_slash_cons s) as (h & t & E). rewrite E in *.
  clear E. revert h H. induction t as [| x t IH]; intros h H.
  - now inversion H.
  - inversion H; subst. now apply IH.
Qed.

(** [document + ".md"] ends in a file name that [normalizeString] keeps:
    what follows the last separator of [document], with [.md] appended. *)
Lemma md_suffix_clean (document : string) :
  Js.split_slash (document ++ ".md")
  = (removelast (Js.split_slash document)
     ++ [(last (Js.split_slash document) "" ++ ".md")%string])%list
  /\ Path.clean (last (Js.split_slash document) "" ++ ".md") = true.
Proof.
  split; [now apply split_slash_append_free |].
  apply md_name_clean, last_slash_free.
Qed.

(** The last piece of either kind of request, and the pieces before it. *)
Lemma path_segments_last (req : DocumentRequest) :
  exists init,
    path_segments req
    = (init ++ [match req with
                | OverviewRequest _ => "overview.md"
                | DetailRequest _ document =>
                    (last (Js.split_slash document) "" ++ ".md")%string
                end])%list.
Proof.
  destruct req as [name | project document]; simpl.
  - eauto.
  - destruct (md_suffix_clean document) as [E _]. rewrite E.
    rewrite app_assoc. eauto.
Qed.

Lemma file_name_clean (req : DocumentRequest) :
  Path.clean match req with
             | OverviewRequest _ => "overview.md"
             | DetailRequest _ document =>
                 last (Js.split_slash document) "" ++ ".md"
             end = true.
Proof.
  destruct req as [name | project document]; [reflexivity |].
  apply md_suffix_clean.
Qed.

Lemma path_segments_slash_free (req : DocumentRequest) :
  Forall (fun s => Js.slash_free s = true) (path_segments req).
Proof.
  destruct req as [name | project document]; simpl; apply Forall_app; split;
    try apply split_slash_slash_free.
  repeat constructor.
Qed.

(** The document path, from the segments of the root and the pieces of the
    request. *)
Lemma docPath_by_segments (process : Process) (rs : list string)
    (req : DocumentRequest) :
  Forall (fun s => Path.clean s = true) rs ->
  projectRoot process = Path.abs_of rs ->
  docPath process req
  = Path.render
      (rev (fold_left (Path.normalize_step false) (path_segments req)
              ("docs" :: rev rs)))
      false.
Proof.
  intros Hrs Hroot.
  assert (H : exists x y,
             docPath process req
             = Path.join (Path.abs_of rs :: ["docs"; x] ++ [y])
             /\ path_segments req = (Js.split_slash x ++ Js.split_slash y)%list
             /\ Js.is_empty y = false /\ Js.ends_with_slash y = false).
  { destruct req as [name | project document]; simpl.
    - exists name, "overview.md". unfold overviewDocPath. rewrite Hroot.
      repeat split; reflexivity.
    - exists project, (document ++ ".md"). unfold detailedDocPath.
      rewrite Hroot. repeat split.
      + now apply is_empty_append.
      + now rewrite ends_with_slash_append. }
  destruct H as (x & y & Hpath & Hsegs & Hy & Hend).
  rewrite Hpath, (@join_abs_of_last rs ["docs"; x] y Hrs Hy), Hend, Hsegs.
  unfold Path.resolved_segments. cbn [flat_map app].
  rewrite app_nil_r.
  change (Js.split_slash "docs") with ["docs"].
  reflexivity.
Qed.

End DocPathShape.

(** X5.  With an absolute module path, the path handed to the file system is an
    absolute path in normal form (no empty, ["."] or [".."] segment, no
    trailing separator) whose last segment is [overview.md] for
    [getOverviewDocFor] and, for [getDetailedDocFor], the part of
    [document] after its last separator followed by [.md].  Whatever the
    request strings are, only a file with such a name is read. *)
Theorem doc_path_ends_in_file_name
    (process : Process) (req : DocumentRequest) :
  Js.starts_with_slash (module_pathname process) = true ->
  exists dirs,
    Forall (fun s => Path.clean s = true) (dirs ++ [file_name req])
    /\ docPath process req = Path.abs_of (dirs ++ [file_name req]).
Proof.
  intros Habs.
  destruct (RootFacts.projectRoot_shape process Habs) as (rs & Hrs & Hroot).
  rewrite (docPath_by_segments process req Hrs Hroot).
  destruct (path_segments_last req) as [init Hinit].
  fold (file_name req) in Hinit.
  pose proof (path_segments_slash_free req) as Hfree.
  rewrite Hinit in *. apply Forall_app in Hfree as [Hfree _].
  rewrite fold_left_app. simpl fold_left at 1.
  rewrite PathFacts.step_clean by apply file_name_clean.
  assert (Hclean : Forall (fun s => Path.clean s = true)
                     (fold_left (Path.normalize_step false) init
                        ("docs" :: rev rs))).
  { apply PathFacts.fold_keeps_clean; [assumption |].
    constructor; [reflexivity | now apply Forall_rev]. }
  exists (rev (fold_left (Path.normalize_step false) init ("docs" :: rev rs))).
  split.
  - apply Forall_app. split; [now apply Forall_rev |].
    constructor; [apply file_name_clean | constructor].
  - simpl rev. apply PathFacts.render_nonempty.
    intros E. apply app_eq_nil in E as [_ E]. discriminate.
Qed.

Lemma doc_path_ends_in_file_name_witness :
  Js.starts_with_slash (module_pathname Sample.proc) = true
  /\ file_name (DetailRequest "ghost" "../../etc/passwd") = "passwd.md"
  /\ exists dirs,
       Forall (fun s => Path.clean s = true) (dirs ++ ["passwd.md"])
       /\ docPath Sample.proc (DetailRequest "ghost" "../../etc/passwd")
          = Path.abs_of (dirs ++ ["passwd.md"]).
Proof.
  split; [reflexivity |]. split; [reflexivity |].
  exact (doc_path_ends_in_file_name
           Sample.proc (DetailRequest "ghost" "../../etc/passwd") eq_refl).
Defined.

Lemma fold_filter_kept (allow : bool) (segs : list string) :
  forall res,
    fold_left (Path.normalize_step allow) (filter kept_segment segs) res
    = fold_left (Path.normalize_step allow) segs res.
Proof.
  induction segs as [| seg segs IH]; intros res; [reflexivity |].
  simpl. unfold kept_segment at 1. unfold Path.normalize_step at 3.
  destruct (Js.is_empty seg || String.eqb seg ".") eqn:E; simpl.
  - apply IH.
  - rewrite IH. unfold Path.normalize_step at 2. now rewrite E.
Qed.

Lemma docPath_kept_segments (process : Process)
    (req req' : DocumentRequest) :
  Js.starts_with_slash (module_pathname process) = true ->
  filter kept_segment (path_segments req)
  = filter kept_segment (path_segments req') ->
  docPath process req = docPath process req'.
Proof.
  intros Habs Hsegs.
  destruct (RootFacts.projectRoot_shape process Habs) as (rs & Hrs & Hroot).
  rewrite !(docPath_by_segments process _ Hrs Hroot).
  rewrite <- (fold_filter_kept false (path_segments req)).
  rewrite <- (fold_filter_kept false (path_segments req')).
  now rewrite Hsegs.
Qed.

(** X6.  With an absolute module path, two requests resolve to the same
    document path whenever their path pieces agree once the empty pieces
    and the ["."] pieces are dropped; the path pieces are those of [name]
    followed by [overview.md], or those of [project] followed by those of
    [document + ".md"].  So a leading separator in any request string does
    not replace the root, a trailing separator or a leading ["./"] in
    [name] or [project] changes nothing, and a separator may stand at the
    end of [project] or at the start of [document] alike.  (Nothing is
    said of a trailing separator in [document]: [.md] is appended after
    it.) *)
Theorem doc_path_depends_on_kept_segments (process : Process) :
  Js.starts_with_slash (module_pathname process) = true ->
  (forall req req',
      filter kept_segment (path_segments req)
      = filter kept_segment (path_segments req') ->
      docPath process req = docPath process req')
  /\ (forall name,
         overviewDocPath process ("/" ++ name) = overviewDocPath process name
         /\ overviewDocPath process (name ++ "/")
            = overviewDocPath process name
         /\ overviewDocPath process ("./" ++ name)
            = overviewDocPath process name)
  /\ (forall project document,
         detailedDocPath process ("/" ++ project) document
         = detailedDocPath process project document
         /\ detailedDocPath process (project ++ "/") document
            = detailedDocPath process project document
         /\ detailedDocPath process ("./" ++ project) document
            = detailedDocPath process project document
         /\ detailedDocPath process project ("/" ++ document)
            = detailedDocPath process project document)
  /\ (forall a b c,
         detailedDocPath process (a ++ "/" ++ b) c
         = detailedDocPath process a (b ++ "/" ++ c)).
Proof.
  intros Habs.
  assert (Htrail : forall x, Js.split_slash (x ++ "/")
                             = (Js.split_slash x ++ [""])%list).
  { intros x. exact (StrFacts.split_slash_append x ""). }
  split; [intros req req'; now apply docPath_kept_segments |].
  split; [| split].
  - intros name. split; [| split].
    + now apply (docPath_kept_segments process
                   (OverviewRequest ("/" ++ name)) (OverviewRequest name)).
    + apply (docPath_kept_segments process
               (OverviewRequest (name ++ "/")) (OverviewRequest name) Habs).
      simpl path_segments. rewrite Htrail, <- app_assoc, !filter_app.
      reflexivity.
    + apply (docPath_kept_segments process
               (OverviewRequest ("./" ++ name)) (OverviewRequest name) Habs).
      reflexivity.
  - intros project document. split; [| split; [| split]].
    + now apply (docPath_kept_segments process
                   (DetailRequest ("/" ++ project) document)
                   (DetailRequest project document)).
    + apply (docPath_kept_segments process
               (DetailRequest (project ++ "/") document)
               (DetailRequest project document) Habs).
      simpl path_segments. rewrite Htrail, <- app_assoc, !filter_app.
      reflexivity.
    + apply (docPath_kept_segments process
               (DetailRequest ("./" ++ project) document)
               (DetailRequest project document) Habs).
      reflexivity.
    + apply (docPath_kept_segments process
               (DetailRequest project ("/" ++ document))
               (DetailRequest project document) Habs).
      simpl path_segments. rewrite !filter_app. reflexivity.
  - intros a b c.
    apply (docPath_kept_segments process
             (DetailRequest (a ++ "/" ++ b) c)
             (DetailRequest a (b ++ "/" ++ c)) Habs).
    cbn [path_segments].
    rewrite !StrFacts.append_assoc, !StrFacts.split_slash_append.
    now rewrite app_assoc.
Qed.

Lemma doc_path_depends_on_kept_segments_witness :
  Js.starts_with_slash (module_pathname Sample.proc) = true
  /\ docPath Sample.proc (OverviewRequest "/.//sample/")
     = docPath Sample.proc (OverviewRequest "sample")
  /\ overviewDocPath Sample.proc "/etc" = "/app/docs/etc/overview.md"
  /\ detailedDocPath Sample.proc "a/b" "c" = "/app/docs/a/b/c.md".
Proof.
  split; [reflexivity |].
  destruct (doc_path_depends_on_kept_segments Sample.proc eq_refl)
    as (Hgen & Hname & _ & Hmove).
  split; [apply Hgen; reflexivity |].
  split.
  - destruct (Hname "etc") as (H & _).
    change (overviewDocPath Sample.proc ("/" ++ "etc")
            = "/app/docs/etc/overview.md").
    rewrite H. reflexivity.
  - change (detailedDocPath Sample.proc ("a" ++ "/" ++ "b") "c"
            = "/app/docs/a/b/c.md").
    rewrite (Hmove "a" "b" "c"). reflexivity.
Defined.

(** X7.  [getDetailedDocFor] asked for the document ["overview"] looks at the
    very path [getOverviewDocFor] looks at, and when that file can be read
    both return the same response. *)
Theorem detailed_overview_agrees_with_overview
    (fs : FileSystem) (process : Process) (name contents : string)
    (log : Log) :
  read_doc fs (overviewDocPath process name) = Normal contents ->
  detailedDocPath process name "overview" = overviewDocPath process name
  /\ fst (getDetailedDocFor fs process name "overview" log)
     = fst (getOverviewDocFor fs process name log).
Proof.
  intros Hread. split; [reflexivity |].
  destruct (getOverviewDocFor_returns fs process name log) as [l1 H1].
  destruct (getDetailedDocFor_returns fs process name "overview" log)
    as [l2 H2].
  rewrite H1, H2. simpl. f_equal.
  unfold detailed_response, overview_response.
  change (detailedDocPath process name "overview")
    with (overviewDocPath process name).
  now rewrite Hread.
Qed.

Lemma detailed_overview_agrees_with_overview_witness :
  read_doc Sample.fs (overviewDocPath Sample.proc "sample") = Normal "Hello"
  /\ fst (getDetailedDocFor Sample.fs Sample.proc "sample" "overview" [])
     = fst (getOverviewDocFor Sample.fs Sample.proc "sample" []).
Proof.
  split; [reflexivity |].
  apply (detailed_overview_agrees_with_overview
           Sample.fs Sample.proc "sample" [] (contents := "Hello") eq_refl).
Defined.

Section EmptyStrings.

Import StrFacts PathFacts RootFacts.

Lemma projectDir_empty (process : Process) :
  projectDir process "" = docs_root process.
Proof.
  unfold projectDir, docs_root, Path.join. cbn [Path.join_args Js.is_empty].
  destruct (Js.is_empty (projectRoot process)); reflexivity.
Qed.

Lemma docPath_directly_under_docs (process : Process)
    (req : DocumentRequest) (f : string) :
  Js.starts_with_slash (module_pathname process) = true ->
  Path.clean f = true ->
  filter kept_segment (path_segments req) = [f] ->
  docPath process req = docs_root process ++ "/" ++ f.
Proof.
  intros Habs Hf Hsegs.
  destruct (projectRoot_shape process Habs) as (rs & Hrs & Hroot).
  rewrite (docPath_by_segments process req Hrs Hroot).
  rewrite <- fold_filter_kept, Hsegs. simpl fold_left.
  rewrite step_clean by assumption.
  simpl rev. rewrite render_nonempty.
  2:{ intros E. apply app_eq_nil in E as [_ E]. discriminate. }
  rewrite abs_of_snoc by (destruct (rev (rev rs)); discriminate).
  unfold docs_root. rewrite Hroot, docs_root_shape by assumption.
  now rewrite rev_involutive.
Qed.

End EmptyStrings.

(** X8.  Empty request strings are not rejected anywhere; they simply vanish
    from the path.  With an absolute module path, [getOverviewDocFor("")]
    looks for [overview.md] directly in [<root>/docs],
    [getDetailedDocFor("", document)] with a plain document name looks for
    [<document>.md] there, an empty [document] stands for the file [.md],
    and the directory listed for the empty project is [<root>/docs]
    itself. *)
Theorem empty_strings_address_docs_root
    (process : Process) (document : string) :
  Js.starts_with_slash (module_pathname process) = true ->
  Js.slash_free document = true ->
  overviewDocPath process "" = docs_root process ++ "/overview.md"
  /\ detailedDocPath process "" document
     = docs_root process ++ "/" ++ document ++ ".md"
  /\ detailedDocPath process "" "" = docs_root process ++ "/.md"
  /\ projectDir process "" = docs_root process.
Proof.
  intros Habs Hdoc. split; [| split; [| split]].
  - apply (docPath_directly_under_docs process (OverviewRequest "") Habs);
      reflexivity.
  - apply (docPath_directly_under_docs process (DetailRequest "" document)
             Habs).
    + now apply md_name_clean.
    + simpl path_segments.
      rewrite StrFacts.split_slash_single
        by (apply slash_free_append; [assumption | reflexivity]).
      simpl. unfold kept_segment.
      pose proof (md_name_clean document Hdoc) as Hc.
      apply PathFacts.clean_inv in Hc as (H1 & H2 & _).
      now rewrite H1, H2.
  - apply (docPath_directly_under_docs process (DetailRequest "" "") Habs);
      reflexivity.
  - apply projectDir_empty.
Qed.

Lemma empty_strings_address_docs_root_witness :
  Js.starts_with_slash (module_pathname Sample.proc) = true
  /\ Js.slash_free "tool" = true
  /\ overviewDocPath Sample.proc "" = "/app/docs/overview.md"
  /\ detailedDocPath Sample.proc "" "tool" = "/app/docs/tool.md"
  /\ detailedDocPath Sample.proc "" "" = "/app/docs/.md"
  /\ projectDir Sample.proc "" = "/app/docs".
Proof.
  split; [reflexivity |]. split; [reflexivity |].
  exact (empty_strings_address_docs_root Sample.proc "tool" eq_refl eq_refl).
Defined.

(* ------------------------------------------------------------------------- *)
(** ** Further properties: the directory that the error lists *)
(* ------------------------------------------------------------------------- *)

Section ListedDirectory.

Import StrFacts PathFacts RootFacts.

(** [join] after a first argument that is itself a rendered path. *)
Lemma join_rendered_last (segs : list string) (b : bool) (y : string) :
  Forall (fun s => Path.clean s = true) segs ->
  Js.is_empty y = false ->
  Path.join [Path.render segs b; y]
  = Path.render (Path.resolved_segments segs [y]) (Js.ends_with_slash y).
Proof.
  intros Hsegs Hy.
  assert (Hne : Js.is_empty (Path.render segs b) = false)
    by (apply starts_with_slash_nonempty, render_absolute).
  unfold Path.join. cbn [Path.join_args]. rewrite Hne, Hy.
  unfold Path.normalize.
  rewrite is_empty_append by (now apply is_empty_append).
  rewrite starts_with_slash_append by exact Hne.
  rewrite render_absolute.
  rewrite (ends_with_slash_append (Path.render segs b) ("/" ++ y))
    by reflexivity.
  rewrite (ends_with_slash_append "/" y Hy).
  simpl negb.
  unfold Path.normalizeString, Path.normalize_segments.
  rewrite split_slash_append, fold_left_app.
  destruct (split_render b Hsegs) as (t & Ht & Hsplit). rewrite Hsplit.
  assert (H0 : fold_left (Path.normalize_step false) ("" :: segs ++ t)%list []
               = rev segs).
  { change (fold_left (Path.normalize_step false) (segs ++ t)%list []
            = rev segs).
    rewrite fold_left_app, (fold_clean false [] Hsegs), app_nil_r.
    destruct Ht as [-> | ->]; reflexivity. }
  rewrite H0.
  assert (E : rev (fold_left (Path.normalize_step false) (Js.split_slash y)
                     (rev segs))
              = Path.resolved_segments segs [y]).
  { unfold Path.resolved_segments. simpl flat_map. now rewrite app_nil_r. }
  rewrite E.
  pose proof (@resolved_segments_clean segs [y] Hsegs) as Hclean.
  destruct (Path.resolved_segments segs [y]) as [| x xs]; [reflexivity |].
  inversion Hclean as [| ? ? Hx _]; subst.
  apply clean_inv in Hx as (Hx & _).
  rewrite (join_is_empty x xs Hx). unfold Path.render.
  destruct (Js.ends_with_slash y); reflexivity.
Qed.

Lemma resolved_segments_nested (rs args : list string) (y : string) :
  Path.resolved_segments (Path.resolved_segments rs args) [y]
  = Path.resolved_segments rs (args ++ [y]).
Proof.
  unfold Path.resolved_segments.
  rewrite rev_involutive, flat_map_app, fold_left_app. reflexivity.
Qed.

End ListedDirectory.

(** X9.  With an absolute module path, the document path of
    [getDetailedDocFor] is [path.join(projectDir, document + ".md")] for
    the [projectDir] that its catch block checks and lists: the directory
    named in the error is the one the document was resolved against. *)
Theorem detailedDocPath_joins_projectDir
    (process : Process) (project document : string) :
  Js.starts_with_slash (module_pathname process) = true ->
  detailedDocPath process project document
  = Path.join [projectDir process project; document ++ ".md"].
Proof.
  intros Habs.
  destruct (RootFacts.projectRoot_shape process Habs) as (rs & Hrs & Hroot).
  assert (Hy : Js.is_empty (document ++ ".md") = false)
    by (now apply StrFacts.is_empty_append).
  unfold detailedDocPath, projectDir. rewrite Hroot.
  destruct (@PathFacts.join_abs_of rs ["docs"; project] Hrs)
    as (j & _ & Hdir).
  rewrite Hdir.
  rewrite join_rendered_last
    by (assumption || now apply PathFacts.resolved_segments_clean).
  rewrite resolved_segments_nested.
  change [Path.abs_of rs; "docs"; project; document ++ ".md"]
    with (Path.abs_of rs
          :: ["docs"; project] ++ [(document ++ ".md")%string])%list.
  now rewrite (@PathFacts.join_abs_of_last rs ["docs"; project]
                 (document ++ ".md") Hrs Hy).
Qed.

Lemma detailedDocPath_joins_projectDir_witness :
  Js.starts_with_slash (module_pathname Sample.proc) = true
  /\ detailedDocPath Sample.proc "bare/" "../sample/tool"
     = Path.join [projectDir Sample.proc "bare/"; "../sample/tool.md"].
Proof.
  split; [reflexivity |].
  exact (detailedDocPath_joins_projectDir
           Sample.proc "bare/" "../sample/tool" eq_refl).
Defined.

Section ListingOnATree.

Import StrFacts PathFacts RootFacts.

Lemma find_entry_none (f : string) (entries : list (string * Tree.node)) :
  Tree.find_entry f entries = None -> ~ In f (map fst entries).
Proof.
  induction entries as [| [n child] rest IH]; simpl; [tauto |].
  destruct (String.eqb_spec n f) as [-> | Hne]; [discriminate |].
  intros H [E | Hin]; [congruence | now apply IH].
Qed.

Lemma walk_file_name (ancestors : list Tree.node)
    (entries : list (string * Tree.node)) (f : string) :
  Path.clean f = true ->
  Tree.walk ancestors (Tree.Dir entries) [f]
  = match Tree.find_entry f entries with
    | Some child => Tree.Found (Tree.Dir entries :: ancestors) child
    | None => Tree.NoEntry
    end.
Proof.
  intros Hf. apply clean_inv in Hf as (H1 & H2 & H3 & _).
  unfold Path.is_dots in H3. simpl. now rewrite H1, H2, H3.
Qed.

Variable root : Tree.node.
Variable process : Process.
Hypothesis module_absolute :
  Js.starts_with_slash (module_pathname process) = true.

(** In a directory that exists, a document with a plain name is missing
    only if the directory has no entry of that name. *)
Lemma missing_document_not_listed (project document : string)
    (anc : list Tree.node) (entries : list (string * Tree.node)) :
  Js.slash_free document = true ->
  Tree.lookup root (cwd process) (projectDir process project)
  = Tree.Found anc (Tree.Dir entries) ->
  Tree.exists_at root (cwd process)
    (detailedDocPath process project document) = false ->
  ~ In (document ++ ".md") (map fst entries).
Proof.
  intros Hdoc Hdir Hmissing.
  pose proof (md_name_clean document Hdoc) as Hf.
  destruct (projectRoot_shape process module_absolute) as (rs & Hrs & Hroot).
  unfold projectDir, detailedDocPath in *. rewrite Hroot in *.
  destruct (@join_abs_of rs ["docs"; project] Hrs) as (j & _ & Hj).
  rewrite Hj in Hdir.
  change [Path.abs_of rs; "docs"; project; document ++ ".md"]
    with (Path.abs_of rs
          :: ["docs"; project] ++ [(document ++ ".md")%string])%list
    in Hmissing.
  rewrite (@join_abs_of_last rs ["docs"; project] (document ++ ".md") Hrs)
    in Hmissing by (now apply is_empty_append).
  rewrite ends_with_slash_append in Hmissing by reflexivity.
  change (Js.ends_with_slash ".md") with false in Hmissing.
  rewrite resolved_segments_snoc in Hmissing by assumption.
  pose proof (@resolved_segments_clean rs ["docs"; project] Hrs) as Hc.
  set (S := Path.resolved_segments rs ["docs"; project]) in *.
  destruct (split_render (Js.ends_with_slash j) Hc) as (t & Ht & Hsplit).
  unfold Tree.exists_at, Tree.lookup in *.
  rewrite render_absolute in *. rewrite Hsplit in Hdir.
  rewrite render_nonempty in Hmissing
    by (intros E; apply app_eq_nil in E as [_ E]; discriminate).
  rewrite split_abs_of in Hmissing.
  2:{ intros E; apply app_eq_nil in E as [_ E]; discriminate. }
  2:{ apply Forall_app. split; [assumption | now constructor]. }
  change ("" :: S ++ t)%list with (("" :: S) ++ t)%list in Hdir.
  change ("" :: S ++ [(document ++ ".md")%string])%list
    with (("" :: S) ++ [(document ++ ".md")%string])%list in Hmissing.
  rewrite walk_app in Hdir, Hmissing.
  destruct (Tree.walk [] root ("" :: S)) as [a n | |]; try discriminate.
  assert (Hn : a = anc /\ n = Tree.Dir entries).
  { destruct Ht as [-> | ->].
    - simpl in Hdir. now injection Hdir as -> ->.
    - destruct n as [c | es]; [discriminate |].
      simpl in Hdir. now injection Hdir as -> ->. }
  destruct Hn as [-> ->].
  rewrite walk_file_name in Hmissing by assumption.
  apply find_entry_none.
  destruct (Tree.find_entry (document ++ ".md") entries);
    [discriminate | reflexivity].
Qed.

End ListingOnATree.

(** X10.  On a directory tree: when [docs/<project>] is a directory and the
    document, whose name contains no separator, does not exist,
    [getDetailedDocFor] answers with the listing of that directory, and the
    requested [<document>.md] is not among the names it lists. *)
Theorem listing_omits_requested_document
    (root : Tree.node) (process : Process) (project document : string)
    (anc : list Tree.node) (entries : list (string * Tree.node))
    (log : Log) :
  Js.starts_with_slash (module_pathname process) = true ->
  Js.slash_free document = true ->
  Tree.lookup root (cwd process) (projectDir process project)
  = Tree.Found anc (Tree.Dir entries) ->
  Tree.exists_at root (cwd process)
    (detailedDocPath process project document) = false ->
  exists (message : string) (log' : Log),
    getDetailedDocFor (Tree.fs root (cwd process)) process project document
      log
    = (Normal
         (error_result
            (detailed_listing_text project document (map fst entries)
               message)), log')
    /\ ~ In (document ++ ".md") (map fst entries).
Proof.
  intros Habs Hdoc Hdir Hmissing.
  destruct (getDetailedDocFor_returns (Tree.fs root (cwd process)) process
              project document log) as [log' H].
  assert (Hread : exists e,
             read_doc (Tree.fs root (cwd process))
               (detailedDocPath process project document) = Throw e).
  { unfold read_doc. simpl. unfold Tree.tree_access.
    unfold Tree.exists_at in Hmissing.
    destruct (Tree.lookup root (cwd process)
                (detailedDocPath process project document));
      [discriminate | eauto | eauto]. }
  destruct Hread as [e He].
  exists (message_of e), log'. split.
  - rewrite H. unfold detailed_response, list_dir. rewrite He. simpl.
    unfold Tree.tree_access, Tree.tree_readdir. now rewrite Hdir.
  - now apply (missing_document_not_listed root process Habs project
                 document (anc := anc)).
Qed.

Lemma listing_omits_requested_document_witness :
  Js.starts_with_slash (module_pathname Sample.proc) = true
  /\ Js.slash_free "resource" = true
  /\ Tree.exists_at Sample.disk (cwd Sample.proc)
       (detailedDocPath Sample.proc "bare" "resource") = false
  /\ exists (message : string) (log' : Log),
       getDetailedDocFor Sample.fs Sample.proc "bare" "resource" []
       = (Normal
            (error_result
               (detailed_listing_text "bare" "resource" ["tool.md"]
                  message)), log')
       /\ ~ In "resource.md" ["tool.md"].
Proof.
  split; [reflexivity |]. split; [reflexivity |]. split; [reflexivity |].
  exact (listing_omits_requested_document
           Sample.disk Sample.proc "bare" "resource" []
           (anc := [Tree.Dir
                      [("sample",
                        Tree.Dir [("overview.md", Tree.File "Hello");
                                  ("tool.md", Tree.File "# Tools")]);
                       ("bare", Tree.Dir [("tool.md", Tree.File "# Tools")])];
                    Tree.Dir
                      [("build", Tree.Dir [("index.js", Tree.File "// entry")]);
                       ("secret.md", Tree.File "top secret");
                       ("overview.md", Tree.File "not a doc");
                       ("docs",
                        Tree.Dir
                          [("sample",
                            Tree.Dir [("overview.md", Tree.File "Hello");
                                      ("tool.md", Tree.File "# Tools")]);
                           ("bare",
                            Tree.Dir [("tool.md", Tree.File "# Tools")])])];
                    Sample.disk])
           (entries := [("tool.md", Tree.File "# Tools")])
           eq_refl eq_refl eq_refl eq_refl).
Defined.

(* ------------------------------------------------------------------------- *)
(** ** Further properties: the diagnostic lines *)
(* ------------------------------------------------------------------------- *)

(** X11.  When the document is read, the handler writes to the log the paths it
    computed and the length of the text in UTF-16 code units, never the
    text itself, and makes no listing: five lines for
    [getOverviewDocFor], three for [getDetailedDocFor]. *)
Theorem success_logs_paths_and_length
    (fs : FileSystem) (process : Process) (req : DocumentRequest)
    (contents : string) (log : Log) :
  access fs (docPath process req) = Normal tt ->
  readFile fs (docPath process req) = Normal contents ->
  handle fs process req log
  = (Normal (text_result contents),
     (log ++
      match req with
      | OverviewRequest name =>
          [("Module path: " ++ modulePath process)%string;
           ("Project root: " ++ projectRoot process)%string;
           ("Attempting to read file at: "
            ++ overviewDocPath process name)%string;
           ("File exists at: " ++ overviewDocPath process name)%string;
           ("Successfully read file with "
            ++ Js.of_nat (Js.length contents) ++ " characters")%string]
      | DetailRequest project document =>
          [("Attempting to read detailed doc at: "
            ++ detailedDocPath process project document)%string;
           ("Detailed doc exists at: "
            ++ detailedDocPath process project document)%string;
           ("Successfully read detailed doc with "
            ++ Js.of_nat (Js.length contents) ++ " characters")%string]
      end)%list).
Proof.
  intros Hacc Hread.
  destruct req as [name | project document]; simpl in Hacc, Hread;
    simpl handle;
    unfold getOverviewDocFor, getDetailedDocFor, try_catch, bind,
      console_error, await, ret;
    rewrite Hacc, Hread, <- !app_assoc; reflexivity.
Qed.

Lemma success_logs_paths_and_length_witness :
  access Sample.fs (docPath Sample.proc (DetailRequest "sample" "tool"))
  = Normal tt
  /\ readFile Sample.fs (docPath Sample.proc (DetailRequest "sample" "tool"))
     = Normal "# Tools"
  /\ getDetailedDocFor Sample.fs Sample.proc "sample" "tool" []
     = (Normal (text_result "# Tools"),
        ["Attempting to read detailed doc at: /app/docs/sample/tool.md";
         "Detailed doc exists at: /app/docs/sample/tool.md";
         "Successfully read detailed doc with 7 characters"]).
Proof.
  split; [reflexivity |]. split; [reflexivity |].
  exact (success_logs_paths_and_length
           Sample.fs Sample.proc (DetailRequest "sample" "tool") []
           (contents := "# Tools") eq_refl eq_refl).
Defined.

(** X12.  When [getOverviewDocFor] cannot read the document and the listing of
    [<cwd>/docs] throws as well, the second failure only leaves a line in
    the log: the last two lines are [Error reading doc: ] with the first
    message and [Error listing directory: ] with the second, and the
    response is the one for the first failure. *)
Theorem overview_listing_failure_is_logged
    (fs : FileSystem) (process : Process) (name : string) (e e' : Thrown)
    (log : Log) :
  read_doc fs (overviewDocPath process name) = Throw e ->
  readdir fs (Path.join [cwd process; "docs"]) = Throw e' ->
  exists lines,
    getOverviewDocFor fs process name log
    = (Normal (error_result (overview_error_text name (message_of e))),
       (log ++ lines
        ++ [("Error reading doc: " ++ message_of e)%string;
            ("Error listing directory: " ++ message_of e')%string])%list).
Proof.
  unfold read_doc. intros Hread Hdir.
  unfold getOverviewDocFor, overview_listing, try_catch, bind,
    console_error, await, ret.
  rewrite Hdir.
  destruct (access fs (overviewDocPath process name)) as [[] | e0].
  - rewrite Hread. eexists [_; _; _; _].
    rewrite <- !app_assoc. reflexivity.
  - injection Hread as ->. eexists [_; _; _].
    rewrite <- !app_assoc. reflexivity.
Qed.

Lemma overview_listing_failure_is_logged_witness :
  read_doc (Tree.fs Sample.disk "/elsewhere")
    (overviewDocPath
       {| module_pathname := "/app/build/index.js"; cwd := "/elsewhere" |}
       "bare")
  = Throw (Tree.enoent "access" "/app/docs/bare/overview.md")
  /\ readdir (Tree.fs Sample.disk "/elsewhere") "/elsewhere/docs"
     = Throw (Tree.enoent "scandir" "/elsewhere/docs")
  /\ exists lines,
       getOverviewDocFor (Tree.fs Sample.disk "/elsewhere")
         {| module_pathname := "/app/build/index.js"; cwd := "/elsewhere" |}
         "bare" []
       = (Normal
            (error_result
               (overview_error_text "bare"
                  ("ENOENT: no such file or directory, access "
                   ++ "'/app/docs/bare/overview.md'"))),
          ([] ++ lines
           ++ [("Error reading doc: "
                ++ "ENOENT: no such file or directory, access "
                ++ "'/app/docs/bare/overview.md'")%string;
               ("Error listing directory: "
                ++ "ENOENT: no such file or directory, scandir "
                ++ "'/elsewhere/docs'")%string])%list).
Proof.
  split; [reflexivity |]. split; [reflexivity |].
  exact (overview_listing_failure_is_logged
           (Tree.fs Sample.disk "/elsewhere")
           {| module_pathname := "/app/build/index.js"; cwd := "/elsewhere" |}
           "bare" []
           (e := Tree.enoent "access" "/app/docs/bare/overview.md")
           (e' := Tree.enoent "scandir" "/elsewhere/docs")
           eq_refl eq_refl).
Defined.

(* ------------------------------------------------------------------------- *)
(** ** Further properties: the project root and the working directory *)
(* ------------------------------------------------------------------------- *)

(** X13.  With an absolute module path the working directory plays no part in
    where documents are looked for: the project root, the document paths
    and the project directory are the same from whatever directory the
    server was started.  (Only the listing in [getOverviewDocFor]'s catch
    block starts from [process.cwd()].) *)
Theorem doc_paths_ignore_cwd
    (module cwd1 cwd2 : string) (req : DocumentRequest) (project : string) :
  Js.starts_with_slash module = true ->
  projectRoot {| module_pathname := module; cwd := cwd1 |}
  = projectRoot {| module_pathname := module; cwd := cwd2 |}
  /\ docPath {| module_pathname := module; cwd := cwd1 |} req
     = docPath {| module_pathname := module; cwd := cwd2 |} req
  /\ projectDir {| module_pathname := module; cwd := cwd1 |} project
     = projectDir {| module_pathname := module; cwd := cwd2 |} project.
Proof.
  intros Habs.
  assert (Hroot : projectRoot {| module_pathname := module; cwd := cwd1 |}
                  = projectRoot {| module_pathname := module; cwd := cwd2 |}).
  { unfold projectRoot, modulePath. simpl module_pathname. simpl cwd.
    rewrite !RootFacts.resolve_parent_shape
      by (now apply RootFacts.dirname_absolute).
    reflexivity. }
  split; [exact Hroot |]. split.
  - destruct req as [name | project' document]; simpl;
      unfold overviewDocPath, detailedDocPath; now rewrite Hroot.
  - unfold projectDir. now rewrite Hroot.
Qed.

Lemma doc_paths_ignore_cwd_witness :
  Js.starts_with_slash "/app/build/index.js" = true
  /\ docPath {| module_pathname := "/app/build/index.js"; cwd := "/tmp" |}
       (OverviewRequest "sample")
     = docPath Sample.proc (OverviewRequest "sample").
Proof.
  split; [reflexivity |].
  apply (doc_paths_ignore_cwd "/app/build/index.js" "/tmp" "/app"
           (OverviewRequest "sample") "sample" eq_refl).
Defined.

(** X14.  An entry module that lies directly in the root directory has the root
    directory as its module directory and as its project root: going up
    one level stops at [/], and the documents are looked for in [/docs]. *)
Theorem project_root_of_top_level_module (f cwd_ : string) :
  Path.clean f = true ->
  let process := {| module_pathname := "/" ++ f; cwd := cwd_ |} in
  modulePath process = "/"
  /\ projectRoot process = "/"
  /\ docs_root process = "/docs".
Proof.
  intros Hf process.
  apply PathFacts.clean_inv in Hf as (Hne & _ & _ & Hfree).
  assert (Hmp : modulePath process = "/").
  { unfold modulePath, Path.dirname. simpl module_pathname.
    cbn [Js.is_empty append Js.starts_with_slash].
    change (Js.is_slash "/") with true.
    change (list_ascii_of_string (String "/" f))
      with ("/"%char :: list_ascii_of_string f).
    change (rev ("/"%char :: list_ascii_of_string f))
      with (rev (list_ascii_of_string f) ++ ["/"%char])%list.
    replace (String.length (String "/" f) - 1)
      with (List.length (rev (list_ascii_of_string f)) + 0).
    2:{ rewrite length_rev, RootFacts.chars_length. simpl. lia. }
    rewrite RootFacts.dirname_scan_skip
      by (apply Forall_rev; now apply RootFacts.chars_slash_free).
    reflexivity. }
  assert (Hroot : projectRoot process = "/").
  { unfold projectRoot. rewrite Hmp. reflexivity. }
  split; [exact Hmp |]. split; [exact Hroot |].
  unfold docs_root. rewrite Hroot. reflexivity.
Qed.

Lemma project_root_of_top_level_module_witness :
  Path.clean "index.js" = true
  /\ modulePath {| module_pathname := "/index.js"; cwd := "/srv" |} = "/"
  /\ projectRoot {| module_pathname := "/index.js"; cwd := "/srv" |} = "/"
  /\ docs_root {| module_pathname := "/index.js"; cwd := "/srv" |} = "/docs".
Proof.
  split; [reflexivity |].
  exact (project_root_of_top_level_module "index.js" "/srv" eq_refl).
Defined.
